(** * HttpReport: the report-assembly pipeline of [src/HttpReport/__init__.py]

    A shallow embedding of the Azure function [main] and of its helpers
    [_parse_multipart], [_read_scores_from_excel], [_build_scorecard_pdf],
    [_fill_word_scores], [_merge_pdfs] and [_upload_with_sas], followed by the
    properties of the pipeline.

    Conventions of the embedding.
    - Python [str] values are [string]s read as ASCII text: [strip] removes
      the ASCII white space characters and [lower] maps [A-Z] to [a-z].
    - Python [bytes] values are lists of bytes.
    - Python [float] values are binary64 numbers ([PrimFloat.float]).
    - A Python [dict] with string keys is an insertion-ordered association
      list without duplicate keys ([PyDict]).
    - A raised exception is the [Raise] branch of [result]; code that talks
      to the storage service threads the [World] explicitly.
    - Temporary files only carry bytes from one library call to the next and
      are modelled by passing the bytes.
    - The model has one clock, read with [utcnow]; a library call whose
      result depends on the time of the call takes that reading as an
      argument.
    - The third-party libraries (requests_toolbelt, pandas, reportlab,
      python-docx, pypdf, azure-storage-blob) are interfaces: type classes
      whose fields are the calls the source makes. *)

From Stdlib Require Import ZArith List String Ascii Bool Lia.
From Stdlib Require Import Floats.PrimFloat Floats.FloatOps Floats.SpecFloat.
From Stdlib Require Import DecimalString.
From stdpp Require Import base option list gmap strings.

Local Open Scope string_scope.
Local Open Scope list_scope.

(* ===================================================================== *)
(** ** Python values: bytes, exceptions *)

Definition bytes := list Byte.byte.

(** Truth value of an optional [bytes] object: [None] and the empty
    byte string are falsy. *)
Definition bytes_truthy (b : option bytes) : bool :=
  match b with
  | Some (_ :: _) => true
  | _ => false
  end.

(** Exceptions the pipeline can see.  [ValueError] and [IndexError] are the
    ones the source raises itself (line 20, 44, 92, 122 and the list indexing
    of line 42 and 96-98); [LibraryError] is any exception a third-party call
    raises.  All of them derive from [Exception]. *)
Inductive exn : Type :=
  | ValueError (msg : string)
  | IndexError (msg : string)
  | LibraryError (msg : string).

(** [str(e)]. *)
Definition exn_str (e : exn) : string :=
  match e with
  | ValueError m | IndexError m | LibraryError m => m
  end.

Inductive result (A : Type) : Type :=
  | Ok (a : A)
  | Raise (e : exn).
Arguments Ok {A} a.
Arguments Raise {A} e.

(** Sequencing: the first exception raised ends the computation.  With the
    instance below, [x ← r; k] is stdpp's notation for it. *)
#[global] Instance result_bind : MBind result := fun A B k r =>
  match r with
  | Ok a => k a
  | Raise e => Raise e
  end.

(* ===================================================================== *)
(** ** Python string methods used by the source *)

Module PyStr.

(** [str.isspace] on ASCII: TAB, LF, VT, FF, CR, FS, GS, RS, US, SPACE. *)
Definition is_space (c : ascii) : bool :=
  let n := nat_of_ascii c in
  ((9 <=? n)%nat && (n <=? 13)%nat) || ((28 <=? n)%nat && (n <=? 32)%nat).

(** The double quote character, code 34. *)
Definition is_quote (c : ascii) : bool := Ascii.eqb c (ascii_of_nat 34).

Fixpoint lstrip_by (p : ascii -> bool) (s : string) : string :=
  match s with
  | String c r => if p c then lstrip_by p r else s
  | EmptyString => EmptyString
  end.

Fixpoint rstrip_by (p : ascii -> bool) (s : string) : string :=
  match s with
  | String c r =>
      match rstrip_by p r with
      | EmptyString => if p c then EmptyString else String c EmptyString
      | r' => String c r'
      end
  | EmptyString => EmptyString
  end.

Definition strip_by (p : ascii -> bool) (s : string) : string :=
  rstrip_by p (lstrip_by p s).

(** [s.strip()] *)
Definition strip (s : string) : string := strip_by is_space s.

(** [s.strip(q)] where [q] is the one-character string holding a double
    quote. *)
Definition strip_quotes (s : string) : string := strip_by is_quote s.

Definition lower_char (c : ascii) : ascii :=
  let n := nat_of_ascii c in
  if ((65 <=? n)%nat && (n <=? 90)%nat) then ascii_of_nat (n + 32) else c.

(** [s.lower()] *)
Fixpoint lower (s : string) : string :=
  match s with
  | String c r => String (lower_char c) (lower r)
  | EmptyString => EmptyString
  end.

(** [s.startswith(p)] *)
Definition startswith (s p : string) : bool := String.prefix p s.

(** [sub in s] *)
Fixpoint contains (sub s : string) : bool :=
  String.prefix sub s ||
  match s with
  | String _ r => contains sub r
  | EmptyString => false
  end.

(** [s.split(sep)] for a one-character separator. *)
Fixpoint split (sep : ascii) (s : string) : list string :=
  match s with
  | EmptyString => [EmptyString]
  | String c r =>
      if Ascii.eqb c sep then EmptyString :: split sep r
      else match split sep r with
           | h :: t => String c h :: t
           | [] => [String c EmptyString]
           end
  end.

(** [s.split(sep, 1)] for a one-character separator. *)
Fixpoint split1 (sep : ascii) (s : string) : list string :=
  match s with
  | EmptyString => [EmptyString]
  | String c r =>
      if Ascii.eqb c sep then [EmptyString; r]
      else match split1 sep r with
           | h :: t => String c h :: t
           | [] => [String c EmptyString]
           end
  end.

(** Truth value of a string: the empty string is falsy. *)
Definition truthy (s : string) : bool :=
  match s with EmptyString => false | _ => true end.

(** Truth value of an optional string: [None] and the empty string are
    falsy. *)
Definition opt_truthy (o : option string) : bool :=
  match o with Some s => truthy s | None => false end.

End PyStr.

(** [l[i]] on a Python list: out of range raises [IndexError]. *)
Definition py_index {A} (l : list A) (i : nat) : result A :=
  match nth_error l i with
  | Some a => Ok a
  | None => Raise (IndexError "list index out of range")
  end.

(* ===================================================================== *)
(** ** Python dictionaries with string keys

    A [dict] keeps its keys in insertion order; assigning to a key that is
    already present replaces the value in place. *)

Module PyDict.

Definition dict (V : Type) := list (string * V).

Definition empty {V} : dict V := [].

(** [d.get(k)] *)
Fixpoint get {V} (k : string) (d : dict V) : option V :=
  match d with
  | [] => None
  | (k', v) :: d' => if String.eqb k k' then Some v else get k d'
  end.

(** [d[k] = v] *)
Fixpoint set {V} (k : string) (v : V) (d : dict V) : dict V :=
  match d with
  | [] => [(k, v)]
  | (k', v') :: d' =>
      if String.eqb k k' then (k', v) :: d' else (k', v') :: set k v d'
  end.



(** [dict(pairs)]: the pairs are assigned from left to right. *)
Definition of_pairs {V} (ps : list (string * V)) : dict V :=
  fold_left (fun d kv => set (fst kv) (snd kv) d) ps empty.

End PyDict.

(* ===================================================================== *)
(** ** Formatting a float with [:.2f]

    The binary value is taken apart exactly ([Prim2SF]), multiplied by 100
    and rounded to the nearest integer, ties to even, as the correctly
    rounded formatting of CPython does. *)

Definition round_half_even (n d : Z) : Z :=
  let q := (n / d)%Z in
  let r := (n mod d)%Z in
  match (2 * r ?= d)%Z with
  | Lt => q
  | Gt => (q + 1)%Z
  | Eq => if Z.even q then q else (q + 1)%Z
  end.

Definition string_of_N (n : N) : string :=
  NilEmpty.string_of_uint (N.to_uint n).

Definition two_digits (n : Z) : string :=
  (if (n <? 10)%Z then "0" else EmptyString) +:+ string_of_N (Z.to_N n).

Definition hundredths (m : positive) (e : Z) : Z :=
  if (0 <=? e)%Z then (Z.pos m * 100 * 2 ^ e)%Z
  else round_half_even (Z.pos m * 100) (2 ^ (- e)).

Definition sign_str (s : bool) : string := if s then "-" else EmptyString.

Definition format_2f (x : float) : string :=
  match Prim2SF x with
  | S754_nan => "nan"
  | S754_infinity s => sign_str s +:+ "inf"
  | S754_zero s => sign_str s +:+ "0.00"
  | S754_finite s m e =>
      let h := hundredths m e in
      sign_str s +:+ string_of_N (Z.to_N (h / 100)) +:+ "."
        +:+ two_digits (h mod 100)
  end.

(** [float(n)] for an integer cell (an int64 of the sheet reader). *)
Definition float_of_int (z : Z) : float :=
  SF2Prim
    match z with
    | Z0 => S754_zero false
    | Zpos p => binary_round prec emax false p 0
    | Zneg p => binary_round prec emax true p 0
    end.

(** [str(n)] for an integer. *)
Definition str_of_int (z : Z) : string :=
  match z with
  | Zneg p => "-" +:+ string_of_N (Npos p)
  | _ => string_of_N (Z.to_N z)
  end.

(** The part of the Python runtime that the source relies on and that is
    not spelled out here: parsing a string as a float ([float(s)], [None]
    when it raises), [repr] of a float (which is what [str] returns) and
    [round(x, 2)]. *)
Class PyFloat : Type := {
  float_of_text : string -> option float;
  float_repr : float -> string;
  round2 : float -> float
}.

(** Monadic left fold: a [for] loop whose body may raise. *)
Fixpoint foldM {A B} (f : B -> A -> result B) (l : list A) (b : B) : result B :=
  match l with
  | [] => Ok b
  | a :: l' => b' ← f b a; foldM f l' b'
  end.

(* ===================================================================== *)
(** ** MultipartExtractor: [_parse_multipart] (lines 17-34) *)

(** Header collections of the HTTP layer ([req.headers], [part.headers]):
    both look keys up without regard to case, and a key given twice keeps
    the value given last. *)
Definition headers := list (string * string).

Definition headers_get (h : headers) (k : string) : option string :=
  fold_left
    (fun acc kv =>
       if String.eqb (PyStr.lower (fst kv)) (PyStr.lower k)
       then Some (snd kv) else acc)
    h None.

(** [a or b] on optional strings. *)
Definition or_str (a b : option string) : option string :=
  if PyStr.opt_truthy a then a else b.

Record HttpRequest : Type := {
  req_headers : headers;
  req_body : bytes
}.

(** A decoded part of the body ([BodyPart] of requests_toolbelt). *)
Record BodyPart : Type := {
  part_headers : headers;
  part_content : bytes
}.

(** requests_toolbelt: [MultipartDecoder(body, content_type).parts]. *)
Class MultipartLib : Type := {
  MultipartDecoder : bytes -> string -> result (list BodyPart)
}.

(** The value stored for a field: [{"filename": ..., "content": ...}]. *)
Record FileEntry : Type := {
  filename : option string;
  content : bytes
}.

(** [token.split("=",1)[1].strip(q)] (lines 29 and 31). *)
Definition token_value (token : string) : result string :=
  v ← py_index (PyStr.split1 "=" token) 1;
  Ok (PyStr.strip_quotes v).

(** One turn of the loop of lines 26-31 on the pair [(name, filename)]. *)
Definition scan_token (st : option string * option string) (token : string)
  : result (option string * option string) :=
  let token := PyStr.strip token in
  st1 ← (if PyStr.startswith token "name="
         then v ← token_value token; Ok (Some v, snd st)
         else Ok st);
  if PyStr.startswith token "filename="
  then v ← token_value token; Ok (fst st1, Some v)
  else Ok st1.

(** Lines 24-31: the [name] and [filename] parameters of a part. *)
Definition disposition_params (part : BodyPart)
  : result (option string * option string) :=
  let cd := default EmptyString
              (headers_get (part_headers part) "Content-Disposition") in
  foldM scan_token (PyStr.split ";" cd) (None, None).

(** Lines 24-33: one turn of the loop over the parts. *)
Definition add_part (files : PyDict.dict FileEntry) (part : BodyPart)
  : result (PyDict.dict FileEntry) :=
  nf ← disposition_params part;
  match fst nf with
  | Some name =>
      if PyStr.truthy name
      then Ok (PyDict.set name
                 {| filename := snd nf; content := part_content part |} files)
      else Ok files
  | None => Ok files
  end.

Definition content_type_error : exn :=
  ValueError "Content-Type must be multipart/form-data".

(** Line 18. *)
Definition request_ctype (req : HttpRequest) : option string :=
  or_str (headers_get (req_headers req) "Content-Type")
         (headers_get (req_headers req) "content-type").

(** Line 19: the header is accepted. *)
Definition ctype_ok (ctype : option string) : bool :=
  match ctype with
  | Some c => PyStr.truthy c && PyStr.contains "multipart/form-data" c
  | None => false
  end.

Definition _parse_multipart `{MultipartLib} (req : HttpRequest)
  : result (PyDict.dict FileEntry) :=
  let ctype := request_ctype req in
  if negb (ctype_ok ctype) then Raise content_type_error
  else
    parts ← MultipartDecoder (req_body req) (default EmptyString ctype);
    foldM add_part parts PyDict.empty.

(* ===================================================================== *)
(** ** ScoreTableReader: [_read_scores_from_excel] (lines 36-61) *)

(** A column label of the data frame: a string, or a value of another type
    (a number read from the header row). *)
Inductive label : Type :=
  | LStr (s : string)
  | LNum (z : Z).

Definition label_eqb (a b : label) : bool :=
  match a, b with
  | LStr x, LStr y => String.eqb x y
  | LNum x, LNum y => Z.eqb x y
  | _, _ => false
  end.

(** A cell of the data frame: text, a float (an empty cell is NaN) or an
    integer. *)
Inductive cell : Type :=
  | CText (s : string)
  | CNum (x : float)
  | CInt (z : Z).

(** The data frame [pd.read_excel] returns: its column labels, pairwise
    distinct, and its rows, each listing the cells in column order. *)
Record DataFrame : Type := {
  columns : list label;
  rows : list (list cell)
}.

(** pandas: [pd.read_excel(file, sheet_name="Summary Dashboard")]. *)
Class ExcelLib : Type := {
  read_excel : bytes -> result DataFrame
}.

(** [pd.isna(v)] *)
Definition isna (c : cell) : bool :=
  match c with
  | CNum x => is_nan x
  | _ => false
  end.

(** [str(v)] *)
Definition py_str `{PyFloat} (c : cell) : string :=
  match c with
  | CText s => s
  | CNum x => float_repr x
  | CInt z => str_of_int z
  end.

(** [to_num] (lines 46-48): [float(v)], or [None] when it raises. *)
Definition to_num `{PyFloat} (c : cell) : option float :=
  match c with
  | CText s => float_of_text s
  | CNum x => Some x
  | CInt z => Some (float_of_int z)
  end.

Fixpoint col_index (cols : list label) (l : label) : option nat :=
  match cols with
  | [] => None
  | c :: cols' =>
      if label_eqb c l then Some 0%nat else S <$> col_index cols' l
  end.

(** [r[l]] and [r.get(l)] for a label of the frame; a cell the sheet does not
    hold is NaN. *)
Definition row_get (cols : list label) (r : list cell) (l : label) : cell :=
  match col_index cols l with
  | Some i => nth i r (CNum nan)
  | None => CNum nan
  end.

(** Line 40: [{c.strip().lower(): c for c in df.columns if isinstance(c,str)}]. *)
Definition cols_map (cols : list label) : PyDict.dict string :=
  PyDict.of_pairs
    (omap (fun l => match l with
                    | LStr c => Some (PyStr.lower (PyStr.strip c), c)
                    | LNum _ => None
                    end) cols).

(** Line 42: [cols_map.get("average score") or list(df.columns)[1]]. *)
Definition resolve_avg_col (cols : list label) : result label :=
  match PyDict.get "average score" (cols_map cols) with
  | Some c => if PyStr.truthy c then Ok (LStr c) else py_index cols 1
  | None => py_index cols 1
  end.

Definition missing_column_error : exn :=
  ValueError "Could not find 'Category' column in Summary Dashboard.".

(** Lines 41-44, in the order of the source: the score column is resolved
    before the category column is checked. *)
Definition resolve_columns (cols : list label) : result (string * label) :=
  let cat_col := PyDict.get "category" (cols_map cols) in
  avg_col ← resolve_avg_col cols;
  match cat_col with
  | Some c => if PyStr.truthy c then Ok (c, avg_col)
              else Raise missing_column_error
  | None => Raise missing_column_error
  end.

(** Line 45: [df.dropna(subset=[cat_col])]. *)
Definition dropna (cols : list label) (cat_col : string)
  (rs : list (list cell)) : list (list cell) :=
  List.filter (fun r => negb (isna (row_get cols r (LStr cat_col)))) rs.

(** The loop state of line 49: [cats, scores, overall]. *)
Definition scores_acc : Type := list string * list float * option float.

(** Lines 51-60: one turn of the loop. *)
Definition scan_row `{PyFloat} (cols : list label) (cat_col : string)
  (avg_col : label) (acc : scores_acc) (r : list cell) : scores_acc :=
  let '(cats, scores, overall) := acc in
  let name := PyStr.strip (py_str (row_get cols r (LStr cat_col))) in
  let val := to_num (row_get cols r avg_col) in
  if negb (PyStr.truthy name) then acc
  else if PyStr.contains "overall" (PyStr.lower name) then
    match val with
    | Some v => (cats, scores, Some v)
    | None => acc
    end
  else
    match val with
    | Some v => (cats ++ [name], scores ++ [v], overall)
    | None => acc
    end.

(** Lines 40-61 on the loaded frame. *)
Definition scores_of_frame `{PyFloat} (df : DataFrame) : result scores_acc :=
  cc ← resolve_columns (columns df);
  let '(cat_col, avg_col) := cc in
  Ok (fold_left (scan_row (columns df) cat_col avg_col)
        (dropna (columns df) cat_col (rows df)) ([], [], None)).

Definition _read_scores_from_excel `{ExcelLib} `{PyFloat} (excel_bytes : bytes)
  : result scores_acc :=
  df ← read_excel excel_bytes;
  scores_of_frame df.

(* ===================================================================== *)
(** ** ScorecardRenderer: [_build_scorecard_pdf] (lines 63-85) *)

(** A cell of the table handed to reportlab: a string or a number. *)
Inductive tcell : Type :=
  | TStr (s : string)
  | TNum (x : float).

(** Lines 70-73: the rows of the table. *)
Definition scorecard_data `{PyFloat} (categories : list string)
  (scores : list float) (overall : option float) : list (list tcell) :=
  [[TStr "Category"; TStr "Average Score (1-5)"]]
  ++ map (fun cs => [TStr (fst cs); TNum (round2 (snd cs))])
         (combine categories scores)
  ++ [[TStr "Overall Average";
       match overall with
       | Some o => TNum (round2 o)
       | None => TStr EmptyString
       end]].

(** reportlab: the document built from the fixed title, the table with its
    fixed style and the fixed tag line (lines 64-69 and 74-85); the result is
    the content of the file written at [out_path]. *)
Class ScorecardLib : Type := {
  build_document : list (list tcell) -> result bytes
}.

Definition _build_scorecard_pdf `{ScorecardLib} `{PyFloat}
  (categories : list string) (scores : list float) (overall : option float)
  : result bytes :=
  build_document (scorecard_data categories scores overall).

(* ===================================================================== *)
(** ** TemplateFiller: [_fill_word_scores] (lines 87-104) *)

(** A paragraph of a table cell: its properties and its text. *)
Record Paragraph : Type := {
  p_props : string;
  p_text : string
}.

(** A table cell of python-docx: the cell properties and the paragraphs. *)
Record DocxCell : Type := {
  cell_props : string;
  cell_paragraphs : list Paragraph
}.

Definition DocxRow : Type := list DocxCell.
Definition DocxTable : Type := list DocxRow.

(** A loaded document: its top-level tables in document order ([doc.tables])
    and everything else, which the source does not look at. *)
Record Document : Type := {
  doc_tables : list DocxTable;
  doc_rest : string
}.

(** python-docx: [Document(path)] and [doc.save(path)], on the file
    contents.  Saving writes a zip package whose members carry the time of
    writing, so the bytes depend on the document and on the clock reading
    when [save] is called. *)
Class DocxLib : Type := {
  load_docx : bytes -> result Document;
  save_docx : Z -> Document -> bytes
}.

Definition newline : string := String (ascii_of_nat 10) EmptyString.

Fixpoint join (sep : string) (l : list string) : string :=
  match l with
  | [] => EmptyString
  | [s] => s
  | s :: l' => s +:+ sep +:+ join sep l'
  end.

(** [cell.text]: the texts of the paragraphs joined by newlines. *)
Definition cell_text (c : DocxCell) : string :=
  join newline (map p_text (cell_paragraphs c)).

(** [cell.text = s]: the content is replaced by one paragraph holding [s];
    the cell properties stay. *)
Definition set_cell_text (s : string) (c : DocxCell) : DocxCell :=
  {| cell_props := cell_props c;
     cell_paragraphs := [ {| p_props := EmptyString; p_text := s |} ] |}.

(** Line 94: [{k.strip().lower(): v for k, v in score_map.items()}]. *)
Definition normalize_map (score_map : PyDict.dict float) : PyDict.dict float :=
  PyDict.of_pairs
    (map (fun kv => (PyStr.lower (PyStr.strip (fst kv)), snd kv)) score_map).

(** [row.cells[i].text = s] *)
Definition set_row_text (i : nat) (s : string) (row : DocxRow) : DocxRow :=
  match nth_error row i with
  | Some c => <[ i := set_cell_text s c ]> row
  | None => row
  end.

(** Lines 96-98: one turn of the loop over [t.rows[1:]]. *)
Definition fill_row (norm : PyDict.dict float) (row : DocxRow) : result DocxRow :=
  c0 ← py_index row 0;
  let key := PyStr.lower (PyStr.strip (cell_text c0)) in
  match PyDict.get key norm with
  | Some v =>
      _ ← py_index row 1;
      Ok (set_row_text 1 (format_2f v) row)
  | None => Ok row
  end.

Fixpoint mapM {A B} (f : A -> result B) (l : list A) : result (list B) :=
  match l with
  | [] => Ok []
  | a :: l' => b ← f a; bs ← mapM f l'; Ok (b :: bs)
  end.

(** Lines 93-98 on the first table: row 0 is kept, the others are visited. *)
Definition fill_table (norm : PyDict.dict float) (t : DocxTable)
  : result DocxTable :=
  rows' ← mapM (fill_row norm) (drop 1 t);
  Ok (take 1 t ++ rows').

Definition missing_table_error : exn :=
  ValueError
    "Word template has no tables. Expected Operations Review table as first table.".

(** Lines 91-98 on the loaded document. *)
Definition fill_document (score_map : PyDict.dict float) (doc : Document)
  : result Document :=
  match doc_tables doc with
  | [] => Raise missing_table_error
  | t :: ts =>
      t' ← fill_table (normalize_map score_map) t;
      Ok {| doc_tables := t' :: ts; doc_rest := doc_rest doc |}
  end.

(** [now] is the clock reading at the time of the call; the source does
    not read it, the library does when it saves (line 100). *)
Definition _fill_word_scores `{DocxLib} (now : Z) (template_bytes : bytes)
  (score_map : PyDict.dict float) : result bytes :=
  doc ← load_docx template_bytes;
  doc' ← fill_document score_map doc;
  Ok (save_docx now doc').

(* ===================================================================== *)
(** ** DocumentMerger: [_merge_pdfs] (lines 106-118) *)

(** pypdf: [PdfReader(stream).pages] and the bytes [PdfWriter.write]
    produces for the pages added so far. *)
Class PdfLib : Type := {
  page : Type;
  PdfReader : bytes -> result (list page);
  PdfWriter_write : list page -> bytes
}.

(** [for p in pages: writer.add_page(p)] on the pages of the writer. *)
Definition add_pages {P : Type} (writer : list P) (pages : list P) : list P :=
  fold_left (fun w p => w ++ [p]) pages writer.

(** Lines 108-110 and 113-115: an optional input is read only when it is
    truthy. *)
Definition add_optional `{PdfLib} (writer : list page) (b : option bytes)
  : result (list page) :=
  if bytes_truthy b then
    ps ← PdfReader (default [] b);
    Ok (add_pages writer ps)
  else Ok writer.

Definition _merge_pdfs `{PdfLib} (cover_pdf_bytes : option bytes)
  (scorecard_pdf : bytes) (narrative_pdf_bytes : option bytes) : result bytes :=
  w1 ← add_optional [] cover_pdf_bytes;
  score ← PdfReader scorecard_pdf;
  let w2 := add_pages w1 score in
  w3 ← add_optional w2 narrative_pdf_bytes;
  Ok (PdfWriter_write w3).

(* ===================================================================== *)
(** ** PublishStore: [_upload_with_sas] (lines 120-140) *)

(** The environment variables of lines 14-15. *)
Record Config : Type := {
  CONN_STR : string;
  CONTAINER : string
}.

(** What the source reads from the service client: [bsc.account_name] and
    [bsc.credential.account_key]. *)
Record Account : Type := {
  account_name : string;
  account_key : string
}.

(** azure-storage-blob and the clock.  [World] is the state of the storage
    service together with the time; a call returns its outcome and the new
    state, which a failed call may have changed too.  [upload_blob] is the
    call with [overwrite=True]; [generate_blob_sas] is the call with the
    read-only permission of line 137; times are in microseconds. *)
Class BlobLib : Type := {
  World : Type;
  from_connection_string : string -> result Account;
  create_container : Account -> string -> World -> result unit * World;
  upload_blob :
    Account -> string -> string -> bytes -> World -> result unit * World;
  generate_blob_sas :
    string -> string -> string -> string -> Z -> result string;
  utcnow : World -> Z
}.

(** [timedelta(hours=24)] in microseconds. *)
Definition hours_24 : Z := 24 * 3600 * 1000000.

Definition not_configured_error : exn :=
  ValueError "AZURE_STORAGE_CONNECTION_STRING not configured.".

(** Lines 129-140: upload, sign, build the URL. *)
Definition upload_and_sign `{BlobLib} (cfg : Config) (bsc : Account)
  (name : string) (data : bytes) (w : World) : result string * World :=
  match upload_blob bsc (CONTAINER cfg) name data w with
  | (Raise e, w') => (Raise e, w')
  | (Ok _, w') =>
      let acc_name := account_name bsc in
      let acc_key := account_key bsc in
      (sas ← generate_blob_sas acc_name (CONTAINER cfg) name acc_key
               (utcnow w' + hours_24)%Z;
       Ok ("https://" +:+ acc_name +:+ ".blob.core.windows.net/"
             +:+ CONTAINER cfg +:+ "/" +:+ name +:+ "?" +:+ sas),
       w')
  end.

Definition _upload_with_sas `{BlobLib} (cfg : Config) (name : string)
  (data : bytes) (w : World) : result string * World :=
  if negb (PyStr.truthy (CONN_STR cfg)) then (Raise not_configured_error, w)
  else
    match from_connection_string (CONN_STR cfg) with
    | Raise e => (Raise e, w)
    | Ok bsc =>
        (* try: container.create_container()  except Exception: pass *)
        let w1 := snd (create_container bsc (CONTAINER cfg) w) in
        upload_and_sign cfg bsc name data w1
    end.

(* ===================================================================== *)
(** ** ReportPipeline: [main] (lines 142-170) *)

Record HttpResponse : Type := {
  status_code : Z;
  body : string;
  resp_headers : list (string * string)
}.

(** [json.dumps] of a dictionary of strings and
    [strftime("%Y%m%d-%H%M%S")] of a time. *)
Class PyStd : Type := {
  json_dumps : list (string * string) -> string;
  strftime_stamp : Z -> string
}.

(** Everything [main] calls into. *)
Class Platform : Type := {
  pf_multipart :: MultipartLib;
  pf_excel :: ExcelLib;
  pf_float :: PyFloat;
  pf_scorecard :: ScorecardLib;
  pf_docx :: DocxLib;
  pf_pdf :: PdfLib;
  pf_blob :: BlobLib;
  pf_std :: PyStd
}.

(** [x["content"] if x else None]; an entry is a non-empty dictionary, so it
    is always truthy. *)
Definition content_of (e : option FileEntry) : option bytes :=
  content <$> e.

(** Lines 154-167, once both required parts are known to be present. *)
Definition assemble `{Platform} (cfg : Config) (excel_bytes word_bytes : bytes)
  (cover_bytes narr_bytes : option bytes) (w : World)
  : result HttpResponse * World :=
  match
    (cso ← _read_scores_from_excel excel_bytes;
     let '(cats, scores, overall) := cso in
     let score_map := PyDict.of_pairs (combine cats scores) in
     scorecard ← _build_scorecard_pdf cats scores overall;
     filled_docx_bytes ← _fill_word_scores (utcnow w) word_bytes score_map;
     final_pdf ← _merge_pdfs cover_bytes scorecard narr_bytes;
     Ok (final_pdf, filled_docx_bytes))
  with
  | Raise e => (Raise e, w)
  | Ok (final_pdf, filled_docx_bytes) =>
      let ts := strftime_stamp (utcnow w) in
      let pdf_name := "CJ_Report_" +:+ ts +:+ ".pdf" in
      let docx_name := "CJ_Narrative_" +:+ ts +:+ ".docx" in
      match _upload_with_sas cfg pdf_name final_pdf w with
      | (Raise e, w1) => (Raise e, w1)
      | (Ok pdf_url, w1) =>
          match _upload_with_sas cfg docx_name filled_docx_bytes w1 with
          | (Raise e, w2) => (Raise e, w2)
          | (Ok docx_url, w2) =>
              (Ok {| status_code := 200;
                     body := json_dumps [("pdf_url", pdf_url);
                                         ("narrative_docx_url", docx_url)];
                     resp_headers := [("Content-Type", "application/json")] |},
               w2)
          end
      end
  end.

(** The body of the [try] block (lines 144-167). *)
Definition pipeline `{Platform} (cfg : Config) (req : HttpRequest) (w : World)
  : result HttpResponse * World :=
  match _parse_multipart req with
  | Raise e => (Raise e, w)
  | Ok files =>
      let excel := PyDict.get "excel" files in
      let word_template := PyDict.get "word_template" files in
      let cover_pdf := PyDict.get "cover_pdf" files in
      let narrative_pdf := PyDict.get "narrative_pdf" files in
      match excel, word_template with
      | Some ex, Some wt =>
          assemble cfg (content ex) (content wt)
            (content_of cover_pdf) (content_of narrative_pdf) w
      | _, _ =>
          (Ok {| status_code := 400;
                 body := "Missing 'excel' or 'word_template'";
                 resp_headers := [] |}, w)
      end
  end.

(** [main]: the [except Exception] handler of lines 168-170 turns every
    exception of the body into a response with status 500. *)
Definition main `{Platform} (cfg : Config) (req : HttpRequest) (w : World)
  : HttpResponse * World :=
  match pipeline cfg req w with
  | (Ok resp, w') => (resp, w')
  | (Raise e, w') =>
      ({| status_code := 500; body := exn_str e; resp_headers := [] |}, w')
  end.

(* ===================================================================== *)
(** ** Vocabulary of the properties *)



(** The key under which a part is stored, if it is stored at all. *)
Definition name_of (p : BodyPart) : option string :=
  match disposition_params p with
  | Ok (Some n, _) => if PyStr.truthy n then Some n else None
  | _ => None
  end.

(** The value stored for a part. *)
Definition entry_of (p : BodyPart) : FileEntry :=
  {| filename := match disposition_params p with
                 | Ok (_, f) => f
                 | Raise _ => None
                 end;
     content := part_content p |}.

Definition stored_as (n : string) (p : BodyPart) : bool :=
  match name_of p with
  | Some m => String.eqb n m
  | None => false
  end.

(** The loop body of lines 23-33, seen through [name_of] and [entry_of]. *)
Definition store_part (files : PyDict.dict FileEntry) (p : BodyPart)
  : PyDict.dict FileEntry :=
  match name_of p with
  | Some n => PyDict.set n (entry_of p) files
  | None => files
  end.

(** The value a sequence of assignments leaves under a key: the one assigned
    last. *)
Definition last_value {V} (k : string) (ps : list (string * V)) : option V :=
  fold_left (fun acc kv => if String.eqb k (fst kv) then Some (snd kv) else acc)
            ps None.

(** The frame has a string column whose name, trimmed and lowercased, is
    [name]. *)
Definition has_column (name : string) (cols : list label) : bool :=
  existsb (fun l => match l with
                    | LStr c => String.eqb (PyStr.lower (PyStr.strip c)) name
                    | LNum _ => false
                    end) cols.

(** The score the normalized mapping holds for the text of a first cell. *)
Definition matching_score (score_map : PyDict.dict float) (text : string)
  : option float :=
  last_value (PyStr.lower (PyStr.strip text))
    (map (fun kv => (PyStr.lower (PyStr.strip (fst kv)), snd kv)) score_map).

(** What the filler is to make of a visited row: when the text of the first
    cell matches a key, the second cell gets the formatted score as its text;
    nothing else changes. *)
Definition filled_row (score_map : PyDict.dict float) (row : DocxRow) : DocxRow :=
  match row with
  | c0 :: c1 :: rest =>
      match matching_score score_map (cell_text c0) with
      | Some v => c0 :: set_cell_text (format_2f v) c1 :: rest
      | None => row
      end
  | _ => row
  end.

(** A visited row the loop body can work on: it has a first cell, and a
    second one when the first matches a key. *)
Definition row_fillable (score_map : PyDict.dict float) (row : DocxRow) : bool :=
  match row with
  | [] => false
  | c0 :: rest =>
      match matching_score score_map (cell_text c0) with
      | Some _ => match rest with [] => false | _ => true end
      | None => true
      end
  end.

(** The pages of an optional input of the merger. *)
Definition optional_pages `{PdfLib} (b : option bytes) : result (list page) :=
  if bytes_truthy b then PdfReader (default [] b) else Ok [].

(* ===================================================================== *)
(** ** Test doubles and example inputs

    Small stand-ins for the third-party libraries, on which the pipeline can
    be run, and the inputs of the examples.  The properties below are stated
    for every implementation of the interfaces; the doubles only supply the
    concrete runs. *)

Definition text_bytes (s : string) : bytes := list_byte_of_string s.
Definition bytes_text (b : bytes) : string := string_of_list_byte b.

Definition digit (c : ascii) : option N :=
  let n := N_of_ascii c in
  if ((48 <=? n) && (n <=? 57))%N then Some (n - 48)%N else None.

Fixpoint read_digits (s : string) (acc : N) : option N :=
  match s with
  | EmptyString => Some acc
  | String c r =>
      match digit c with
      | Some d => read_digits r (acc * 10 + d)%N
      | None => None
      end
  end.

(** [m / 10^k] with a sign, when both [m] and [10^k] are exact floats, so
    that one division rounds correctly. *)
Definition scaled (neg : bool) (m : N) (k : nat) : option float :=
  if ((m <? 2 ^ 53)%N && (k <=? 22)%nat)%bool then
    let q := (float_of_int (Z.of_N m) / float_of_int (10 ^ Z.of_nat k))%float in
    Some (if neg then (- q)%float else q)
  else None.

(** A reader of short decimal literals: optional sign, digits, optional
    fraction.  Everything else is rejected. *)
Definition short_decimal (s : string) : option float :=
  let s := PyStr.strip s in
  let '(neg, digits) :=
    match s with
    | String "-" r => (true, r)
    | String "+" r => (false, r)
    | _ => (false, s)
    end in
  match PyStr.split1 "." digits with
  | [i] => if PyStr.truthy i then m ← read_digits i 0; scaled neg m 0 else None
  | [i; f] =>
      if PyStr.truthy i || PyStr.truthy f
      then m ← read_digits (i +:+ f) 0; scaled neg m (String.length f)
      else None
  | _ => None
  end.

(** A runtime for the examples: short decimal literals are read, floats are
    printed and rounded through [format_2f]. *)
Definition test_runtime : PyFloat :=
  {| float_of_text := short_decimal;
     float_repr := format_2f;
     round2 := fun x => default x (short_decimal (format_2f x)) |}.

(** A decoder that yields given parts. *)
Definition fixed_decoder (parts : list BodyPart) : MultipartLib :=
  {| MultipartDecoder := fun _ _ => Ok parts |}.

(** A workbook reader that yields a given frame. *)
Definition fixed_excel (df : DataFrame) : ExcelLib :=
  {| read_excel := fun _ => Ok df |}.

(** Word documents as lines of text: one table, a row per line, the cells
    separated by a vertical bar; no bytes, no table. *)
Definition bar : ascii := ascii_of_nat 124.

Definition text_cell (s : string) : DocxCell :=
  {| cell_props := EmptyString;
     cell_paragraphs := [ {| p_props := EmptyString; p_text := s |} ] |}.

Definition line_docx : DocxLib :=
  {| load_docx := fun b =>
       Ok {| doc_tables :=
               match b with
               | [] => []
               | _ => [map (fun line => map text_cell (PyStr.split bar line))
                         (PyStr.split (ascii_of_nat 10) (bytes_text b))]
               end;
             doc_rest := EmptyString |};
     save_docx := fun _ d =>
       match doc_tables d with
       | [] => []
       | t :: _ =>
           text_bytes
             (join newline
                (map (fun row => join (String bar EmptyString) (map cell_text row))
                   t))
       end |}.

(** The same documents in a package that carries the time of writing, in
    steps of two seconds as a zip member does: one leading byte. *)
Definition time_stamp (now : Z) : Byte.byte :=
  default Byte.x00 (Byte.of_N (Z.to_N ((now / 2000000) mod 256))).

Definition stamped_docx : DocxLib :=
  {| load_docx := fun b =>
       match b with
       | [] => Raise (LibraryError "Package not found")
       | _ :: rest => @load_docx line_docx rest
       end;
     save_docx := fun now d => time_stamp now :: @save_docx line_docx now d |}.

(** Page-oriented documents with one byte per page. *)
Definition byte_pdf : PdfLib :=
  {| page := Byte.byte;
     PdfReader := fun b => Ok b;
     PdfWriter_write := fun ps => ps |}.

(** A renderer that produces a one-page document. *)
Definition one_page_scorecard : ScorecardLib :=
  {| build_document := fun _ => Ok [Byte.x53] |}.

(** An in-memory storage service: the blobs of each container, the time,
    and whether the caller may create containers. *)
Record Service : Type := {
  containers : gmap string (gmap string bytes);
  clock : Z;
  may_create : bool
}.

Definition connection_field (key s : string) : result string :=
  match List.filter (fun t => PyStr.startswith t key) (PyStr.split ";" s) with
  | t :: _ => token_value t
  | [] => Raise (ValueError "Connection string missing required connection details.")
  end.

Definition memory_blob : BlobLib :=
  {| World := Service;
     from_connection_string := fun s =>
       n ← connection_field "AccountName=" s;
       k ← connection_field "AccountKey=" s;
       Ok {| account_name := n; account_key := k |};
     create_container := fun _ c w =>
       if negb (may_create w)
       then (Raise (LibraryError "AuthorizationPermissionMismatch"), w)
       else match containers w !! c with
            | Some _ => (Raise (LibraryError "ContainerAlreadyExists"), w)
            | None =>
                (Ok tt, {| containers := <[ c := ∅ ]> (containers w);
                           clock := clock w; may_create := may_create w |})
            end;
     upload_blob := fun _ c n data w =>
       match containers w !! c with
       | Some blobs =>
           (Ok tt, {| containers := <[ c := <[ n := data ]> blobs ]> (containers w);
                      clock := clock w; may_create := may_create w |})
       | None => (Raise (LibraryError "ContainerNotFound"), w)
       end;
     generate_blob_sas := fun _ _ _ key expiry =>
       Ok ("sp=r&se=" +:+ str_of_int expiry +:+ "&sig=" +:+ key);
     utcnow := clock |}.

Definition dquote : string := String (ascii_of_nat 34) EmptyString.

Definition plain_std : PyStd :=
  {| json_dumps := fun kvs =>
       "{" +:+ join ", "
                 (map (fun kv => dquote +:+ fst kv +:+ dquote +:+ ": "
                                 +:+ dquote +:+ snd kv +:+ dquote) kvs)
           +:+ "}";
     strftime_stamp := fun t => str_of_int (t / 1000000) |}.

Definition test_platform (m : MultipartLib) (x : ExcelLib) : Platform :=
  {| pf_multipart := m;
     pf_excel := x;
     pf_float := test_runtime;
     pf_scorecard := one_page_scorecard;
     pf_docx := line_docx;
     pf_pdf := byte_pdf;
     pf_blob := memory_blob;
     pf_std := plain_std |}.

Definition test_config : Config :=
  {| CONN_STR := "AccountName=cjreports;AccountKey=c2VjcmV0";
     CONTAINER := "reports" |}.

(** The worksheet of the example: three rows under the usual headers. *)
Definition example_frame : DataFrame :=
  {| columns := [LStr "Category"; LStr "Average Score"];
     rows := [ [CText "Cleanliness"; CNum 4.5];
               [CText "Staff"; CNum 3.8];
               [CText "Overall Score"; CNum 4.1] ] |}.

(** The same worksheet with a note in a score cell. *)
Definition noted_frame : DataFrame :=
  {| columns := [LStr "Category"; LStr "Average Score"];
     rows := [ [CText "Cleanliness"; CNum 4.5];
               [CText "Parking"; CText "N/A"];
               [CText "Staff"; CNum 3.8] ] |}.

(** Worksheets with a single column. *)
Definition category_only_frame : DataFrame :=
  {| columns := [LStr "Category"]; rows := [ [CText "Staff"] ] |}.

Definition notes_only_frame : DataFrame :=
  {| columns := [LStr "Notes"]; rows := [ [CText "Staff"] ] |}.

(** A worksheet without a category column. *)
Definition no_category_frame : DataFrame :=
  {| columns := [LStr "Area"; LStr "Average Score"];
     rows := [ [CText "Staff"; CNum 3.8] ] |}.

(** Templates: a two-column review table, and a one-column table. *)
Definition review_template : bytes :=
  text_bytes ("Category|Score" +:+ newline +:+ "Cleanliness|" +:+ newline
              +:+ " STAFF |-" +:+ newline +:+ "Notes|see appendix").

Definition one_column_template : bytes :=
  text_bytes ("Category" +:+ newline +:+ "Staff").

Definition example_scores : PyDict.dict float :=
  [("Cleanliness", 4.5%float); ("Staff", 3.8%float)].

(** A request without headers, and a well-formed one. *)
Definition bare_request : HttpRequest :=
  {| req_headers := []; req_body := [] |}.

Definition form_request : HttpRequest :=
  {| req_headers := [("Content-Type", "multipart/form-data; boundary=xyz")];
     req_body := [] |}.

Definition example_parts : list BodyPart :=
  [ {| part_headers := [("Content-Disposition", "form-data; name=excel; filename=old.xlsx")];
       part_content := [Byte.x01] |};
    {| part_headers := [("Content-Type", "text/plain")];
       part_content := [Byte.x02] |};
    {| part_headers := [("content-disposition", "form-data; name=excel; filename=new.xlsx")];
       part_content := [Byte.x03] |} ].

(** A service on which the container exists and may not be created. *)
Definition locked_service : Service :=
  {| containers := {[ "reports" := ∅ ]}; clock := 0; may_create := false |}.

Definition test_account : Account :=
  {| account_name := "cjreports"; account_key := "c2VjcmV0" |}.

(* ===================================================================== *)
(** ** Configuration and further vocabulary *)

(** Lines 14-15: the configuration read from the process environment, a
    mapping from variable names to strings. *)
Definition config_of_env (env : PyDict.dict string) : Config :=
  {| CONN_STR :=
       default EmptyString (PyDict.get "AZURE_STORAGE_CONNECTION_STRING" env);
     CONTAINER := default "reports" (PyDict.get "BLOB_CONTAINER" env) |}.

(** Lines 154-160: the documents [main] prepares before it publishes, the
    merged PDF and the filled template, at the clock reading [now]. *)
Definition build_documents `{Platform} (now : Z)
  (excel_bytes word_bytes : bytes) (cover_bytes narr_bytes : option bytes)
  : result (bytes * bytes) :=
  cso ← _read_scores_from_excel excel_bytes;
  let '(cats, scores, overall) := cso in
  let score_map := PyDict.of_pairs (combine cats scores) in
  scorecard ← _build_scorecard_pdf cats scores overall;
  filled_docx_bytes ← _fill_word_scores now word_bytes score_map;
  final_pdf ← _merge_pdfs cover_bytes scorecard narr_bytes;
  Ok (final_pdf, filled_docx_bytes).

(** The responses of lines 150, 167 and 170. *)
Definition missing_part_response : HttpResponse :=
  {| status_code := 400;
     body := "Missing 'excel' or 'word_template'";
     resp_headers := [] |}.

Definition error_response (e : exn) : HttpResponse :=
  {| status_code := 500; body := exn_str e; resp_headers := [] |}.

Definition success_response `{PyStd} (pdf_url docx_url : string) : HttpResponse :=
  {| status_code := 200;
     body := json_dumps [("pdf_url", pdf_url); ("narrative_docx_url", docx_url)];
     resp_headers := [("Content-Type", "application/json")] |}.

(** The object names of lines 162-163. *)
Definition report_name (ts : string) : string := "CJ_Report_" +:+ ts +:+ ".pdf".
Definition narrative_name (ts : string) : string :=
  "CJ_Narrative_" +:+ ts +:+ ".docx".

(** The URL of line 140. *)
Definition blob_url (acc_name container name sas : string) : string :=
  "https://" +:+ acc_name +:+ ".blob.core.windows.net/"
    +:+ container +:+ "/" +:+ name +:+ "?" +:+ sas.

(** What the loop of lines 50-60 reads from a row. *)
Definition row_name `{PyFloat} (cols : list label) (cat_col : string)
  (r : list cell) : string :=
  PyStr.strip (py_str (row_get cols r (LStr cat_col))).

Definition row_score `{PyFloat} (cols : list label) (avg_col : label)
  (r : list cell) : option float :=
  to_num (row_get cols r avg_col).

Definition is_overall (name : string) : bool :=
  PyStr.contains "overall" (PyStr.lower name).

(** The category score a row stands for, if any. *)
Definition category_entry `{PyFloat} (cols : list label) (cat_col : string)
  (avg_col : label) (r : list cell) : option (string * float) :=
  let name := row_name cols cat_col r in
  if PyStr.truthy name && negb (is_overall name)
  then match row_score cols avg_col r with
       | Some v => Some (name, v)
       | None => None
       end
  else None.

(** The overall score a row stands for, if any. *)
Definition overall_entry `{PyFloat} (cols : list label) (cat_col : string)
  (avg_col : label) (r : list cell) : option float :=
  let name := row_name cols cat_col r in
  if PyStr.truthy name && is_overall name
  then row_score cols avg_col r
  else None.

(** Two rows that differ at most in the paragraphs of the second cell. *)
Definition same_but_second_text (row row' : DocxRow) : Prop :=
  length row' = length row
  /\ map cell_props row' = map cell_props row
  /\ (forall j, j <> 1%nat -> nth_error row' j = nth_error row j).

Definition is_digit (c : ascii) : bool :=
  match digit c with Some _ => true | None => false end.

Fixpoint all_chars (p : ascii -> bool) (s : string) : bool :=
  match s with
  | EmptyString => true
  | String c r => p c && all_chars p r
  end.

(** Further example inputs. *)
Definition blank_score_row : list cell := [CText " Parking "; CNum nan].

Definition repeated_frame : DataFrame :=
  {| columns := [LStr "Category"; LStr "Average Score"];
     rows := [ [CText "Overall"; CNum 4.0];
               [CText "Staff"; CNum 3.5];
               [CText "  "; CNum 1.0];
               [CText "Staff"; CNum 3.8];
               [CText "Overall (final)"; CNum 4.1];
               [CText "overall note"; CText "tbd"] ] |}.

Definition open_service : Service :=
  {| containers := ∅; clock := 0; may_create := true |}.

Definition full_parts : list BodyPart :=
  [ {| part_headers := [("Content-Disposition", "form-data; name=excel; filename=s.xlsx")];
       part_content := [Byte.x01] |};
    {| part_headers := [("Content-Disposition", "form-data; name=word_template; filename=t.docx")];
       part_content := review_template |} ].

(* ===================================================================== *)
(** * Properties *)

(** ** Strings and dictionaries *)

Lemma prefix_app (p s : string) :
  String.prefix p s = true -> exists r, s = (p +:+ r).
Proof.
  revert s; induction p as [|c p IH]; intros s Hp.
  - exists s; reflexivity.
  - destruct s as [|c' s]; simpl in Hp; [discriminate|].
    destruct (Ascii.ascii_dec c c') as [->|Hne]; [|discriminate].
    destruct (IH _ Hp) as [r ->].
    exists r; reflexivity.
Qed.

Lemma token_value_name (t : string) :
  PyStr.startswith t "name=" = true -> exists v, token_value t = Ok v.
Proof.
  intros Hp; apply prefix_app in Hp as [r ->].
  eexists; reflexivity.
Qed.

Lemma token_value_filename (t : string) :
  PyStr.startswith t "filename=" = true -> exists v, token_value t = Ok v.
Proof.
  intros Hp; apply prefix_app in Hp as [r ->].
  eexists; reflexivity.
Qed.

Module PyDictFacts.
Import PyDict.

Lemma get_set {V} (k k' : string) (v : V) (d : dict V) :
  get k (set k' v d) = if String.eqb k k' then Some v else get k d.
Proof.
  induction d as [|[k0 v0] d IH]; simpl; [reflexivity|].
  destruct (String.eqb_spec k' k0) as [->|Hne]; simpl.
  - destruct (String.eqb k k0); reflexivity.
  - rewrite IH.
    destruct (String.eqb_spec k k0) as [->|Hne'].
    + apply String.eqb_neq in Hne. rewrite String.eqb_sym in Hne.
      rewrite Hne; reflexivity.
    + reflexivity.
Qed.




End PyDictFacts.

(** ** MultipartExtractor *)

Section Multipart.
Context `{MultipartLib}.

Lemma scan_token_total (st : option string * option string) (t : string) :
  exists st', scan_token st t = Ok st'.
Proof.
  unfold scan_token.
  destruct (PyStr.startswith (PyStr.strip t) "name=") eqn:Hn.
  - destruct (token_value_name _ Hn) as [v ->]; simpl.
    destruct (PyStr.startswith (PyStr.strip t) "filename=");
      eexists; reflexivity.
  - simpl.
    destruct (PyStr.startswith (PyStr.strip t) "filename=") eqn:Hf.
    + destruct (token_value_filename _ Hf) as [v' ->]. eexists; reflexivity.
    + eexists; reflexivity.
Qed.

Lemma foldM_total {A B} (f : B -> A -> result B) (l : list A) (b : B) :
  (forall b a, exists b', f b a = Ok b') -> exists b', foldM f l b = Ok b'.
Proof.
  intros Hf; revert b; induction l as [|a l IH]; intros b; simpl.
  - eexists; reflexivity.
  - destruct (Hf b a) as [b' ->]; simpl. apply IH.
Qed.

Lemma disposition_params_total (p : BodyPart) :
  exists nf, disposition_params p = Ok nf.
Proof. apply foldM_total, scan_token_total. Qed.




Lemma add_part_store (files : PyDict.dict FileEntry) (p : BodyPart) :
  add_part files p = Ok (store_part files p).
Proof.
  unfold add_part, store_part, name_of, entry_of.
  destruct (disposition_params_total p) as [[n f] ->]; simpl.
  destruct n as [n|]; [|reflexivity].
  destruct (PyStr.truthy n); reflexivity.
Qed.

Lemma foldM_add_part (parts : list BodyPart) (files : PyDict.dict FileEntry) :
  foldM add_part parts files = Ok (fold_left store_part parts files).
Proof.
  revert files; induction parts as [|p parts IH]; intros files; simpl.
  - reflexivity.
  - rewrite add_part_store; simpl. apply IH.
Qed.

Lemma get_store_parts (n : string) (parts : list BodyPart)
  (files : PyDict.dict FileEntry) :
  PyDict.get n (fold_left store_part parts files) =
  match last (List.filter (stored_as n) parts) with
  | Some p => Some (entry_of p)
  | None => PyDict.get n files
  end.
Proof.
  induction parts as [|p parts IH] using rev_ind; [reflexivity|].
  rewrite fold_left_app, List.filter_app; simpl.
  unfold store_part at 1, stored_as at 2.
  destruct (name_of p) as [m|] eqn:Hm.
  - rewrite PyDictFacts.get_set.
    destruct (String.eqb n m); simpl.
    + rewrite last_snoc; reflexivity.
    + rewrite app_nil_r; exact IH.
  - simpl; rewrite app_nil_r; exact IH.
Qed.


Lemma parse_multipart_raises (req : HttpRequest) :
  ctype_ok (request_ctype req) = false ->
  _parse_multipart req = Raise content_type_error.
Proof. unfold _parse_multipart; intros ->; reflexivity. Qed.

Lemma parse_multipart_decoder (req : HttpRequest) :
  ctype_ok (request_ctype req) = true ->
  _parse_multipart req =
  (parts ← MultipartDecoder (req_body req)
             (default EmptyString (request_ctype req));
   foldM add_part parts PyDict.empty).
Proof. unfold _parse_multipart; intros ->; reflexivity. Qed.


End Multipart.

(** ** ScoreTableReader *)

Lemma last_value_snoc {V} (k : string) (ps : list (string * V)) (kv : string * V) :
  last_value k (ps ++ [kv]) =
  if String.eqb k (fst kv) then Some (snd kv) else last_value k ps.
Proof. unfold last_value; rewrite fold_left_app; reflexivity. Qed.

Lemma get_fold_set {V} (k : string) (ps : list (string * V)) (d : PyDict.dict V) :
  PyDict.get k (fold_left (fun d kv => PyDict.set (fst kv) (snd kv) d) ps d) =
  match last_value k ps with
  | Some v => Some v
  | None => PyDict.get k d
  end.
Proof.
  induction ps as [|kv ps IH] using rev_ind; [reflexivity|].
  rewrite fold_left_app, last_value_snoc; simpl.
  rewrite PyDictFacts.get_set.
  destruct (String.eqb k (fst kv)); [reflexivity|exact IH].
Qed.

Lemma get_of_pairs {V} (k : string) (ps : list (string * V)) :
  PyDict.get k (PyDict.of_pairs ps) = last_value k ps.
Proof.
  unfold PyDict.of_pairs; rewrite get_fold_set.
  destruct (last_value k ps); reflexivity.
Qed.

Lemma has_column_snoc (name : string) (cols : list label) (l : label) :
  has_column name (cols ++ [l]) =
  has_column name cols ||
  match l with
  | LStr c => String.eqb (PyStr.lower (PyStr.strip c)) name
  | LNum _ => false
  end.
Proof.
  unfold has_column; rewrite existsb_app; simpl.
  rewrite orb_false_r; reflexivity.
Qed.

Lemma cols_map_snoc (cols : list label) (l : label) :
  cols_map (cols ++ [l]) =
  match l with
  | LStr c => PyDict.set (PyStr.lower (PyStr.strip c)) c (cols_map cols)
  | LNum _ => cols_map cols
  end.
Proof.
  unfold cols_map, PyDict.of_pairs.
  rewrite omap_app, fold_left_app.
  destruct l; reflexivity.
Qed.

(** The dictionary of line 40 finds a name exactly when a column carries it,
    and then gives a column that carries it. *)
Lemma get_cols_map (name : string) (cols : list label) :
  match PyDict.get name (cols_map cols) with
  | Some c => has_column name cols = true
              /\ In (LStr c) cols /\ PyStr.lower (PyStr.strip c) = name
  | None => has_column name cols = false
  end.
Proof.
  induction cols as [|l cols IH] using rev_ind; [reflexivity|].
  rewrite cols_map_snoc, has_column_snoc.
  destruct l as [c|z].
  - rewrite PyDictFacts.get_set.
    rewrite (String.eqb_sym name).
    destruct (String.eqb_spec (PyStr.lower (PyStr.strip c)) name) as [Heq|Hne].
    + rewrite orb_true_r. repeat split; auto.
      apply in_or_app; right; left; reflexivity.
    + rewrite orb_false_r.
      destruct (PyDict.get name (cols_map cols)) as [c'|]; [|exact IH].
      destruct IH as (? & ? & ?); repeat split; auto.
      apply in_or_app; left; assumption.
  - rewrite orb_false_r.
    destruct (PyDict.get name (cols_map cols)) as [c'|]; [|exact IH].
    destruct IH as (? & ? & ?); repeat split; auto.
    apply in_or_app; left; assumption.
Qed.

Lemma normalized_name_truthy (c name : string) :
  PyStr.lower (PyStr.strip c) = name -> PyStr.truthy name = true ->
  PyStr.truthy c = true.
Proof. destruct c; [intros <-; discriminate|reflexivity]. Qed.

Lemma resolve_avg_col_named (cols : list label) :
  has_column "average score" cols = true ->
  exists c, resolve_avg_col cols = Ok (LStr c)
            /\ In (LStr c) cols
            /\ PyStr.lower (PyStr.strip c) = "average score".
Proof.
  intros Hc. unfold resolve_avg_col.
  pose proof (get_cols_map "average score" cols) as Hg.
  destruct (PyDict.get "average score" (cols_map cols)) as [c|].
  - destruct Hg as (_ & Hin & Hn). exists c.
    rewrite (normalized_name_truthy _ _ Hn eq_refl). auto.
  - congruence.
Qed.

Lemma resolve_avg_col_fallback (cols : list label) :
  has_column "average score" cols = false ->
  resolve_avg_col cols = py_index cols 1.
Proof.
  intros Hc. unfold resolve_avg_col.
  pose proof (get_cols_map "average score" cols) as Hg.
  destruct (PyDict.get "average score" (cols_map cols)) as [c|]; [|reflexivity].
  destruct Hg as (Hh & _); congruence.
Qed.

Lemma py_index_short {A} (l : list A) (i : nat) :
  (length l <= i)%nat ->
  py_index l i = Raise (IndexError "list index out of range").
Proof.
  intros Hl; unfold py_index.
  destruct (nth_error l i) eqn:Hn; [|reflexivity].
  assert (nth_error l i <> None) as Hs by congruence. apply nth_error_Some in Hs; lia.
Qed.

Lemma py_index_long {A} (l : list A) (i : nat) :
  (i < length l)%nat -> exists a, py_index l i = Ok a.
Proof.
  intros Hl; unfold py_index.
  destruct (nth_error l i) eqn:Hn; [eexists; reflexivity|].
  apply nth_error_None in Hn; lia.
Qed.

Lemma resolve_columns_ok (cols : list label) (cat_col : string)
  (avg_col : label) :
  resolve_columns cols = Ok (cat_col, avg_col) ->
  resolve_avg_col cols = Ok avg_col
  /\ PyDict.get "category" (cols_map cols) = Some cat_col.
Proof.
  unfold resolve_columns.
  destruct (resolve_avg_col cols) as [l|e]; simpl; [|discriminate].
  destruct (PyDict.get "category" (cols_map cols)) as [c|]; [|discriminate].
  destruct (PyStr.truthy c); [|discriminate].
  intros [= <- <-]. auto.
Qed.

Section ScoreTable.
Context `{ExcelLib} `{PyFloat}.

(** A row whose score cell does not convert leaves the loop state as it
    is. *)
Lemma scan_row_unparsable cols cat_col avg_col acc r :
  to_num (row_get cols r avg_col) = None ->
  scan_row cols cat_col avg_col acc r = acc.
Proof.
  intros Hn; unfold scan_row; rewrite Hn.
  destruct acc as [[cats scores] overall].
  destruct (negb _); [reflexivity|].
  destruct (PyStr.contains _ _); reflexivity.
Qed.

Lemma scan_row_no_overall cols cat_col avg_col acc r :
  Forall (fun c => PyStr.contains "overall" (PyStr.lower c) = false)
         (fst (fst acc)) ->
  Forall (fun c => PyStr.contains "overall" (PyStr.lower c) = false)
         (fst (fst (scan_row cols cat_col avg_col acc r))).
Proof.
  intros Hacc; unfold scan_row.
  destruct acc as [[cats scores] overall]; simpl in *.
  destruct (negb _); [assumption|].
  destruct (PyStr.contains _ _) eqn:Hc.
  - destruct (to_num _); assumption.
  - destruct (to_num _); [|assumption]. simpl.
    apply Forall_app; split; [assumption|].
    constructor; [exact Hc|constructor].
Qed.

Lemma scan_rows_no_overall cols cat_col avg_col rs acc :
  Forall (fun c => PyStr.contains "overall" (PyStr.lower c) = false)
         (fst (fst acc)) ->
  Forall (fun c => PyStr.contains "overall" (PyStr.lower c) = false)
         (fst (fst (fold_left (scan_row cols cat_col avg_col) rs acc))).
Proof.
  revert acc; induction rs as [|r rs IH]; intros acc Hacc; simpl.
  - assumption.
  - apply IH, scan_row_no_overall, Hacc.
Qed.

Lemma scan_rows_lengths cols cat_col avg_col rs acc :
  length (fst (fst acc)) = length (snd (fst acc)) ->
  length (fst (fst (fold_left (scan_row cols cat_col avg_col) rs acc)))
  = length (snd (fst (fold_left (scan_row cols cat_col avg_col) rs acc))).
Proof.
  revert acc; induction rs as [|r rs IH]; intros acc Hacc; simpl.
  - assumption.
  - apply IH. unfold scan_row.
    destruct acc as [[cats scores] overall]; simpl in *.
    destruct (negb _); [assumption|].
    destruct (PyStr.contains _ _); destruct (to_num _); simpl; try assumption.
    rewrite !length_app; simpl; lia.
Qed.

(** C9.  When the loaded worksheet has fewer than two columns and none of
    them is named "average score" (trimmed, case-insensitive), the reader
    fails with the [IndexError] of the positional fallback [columns[1]],
    whether or not a "category" column is present: the fallback is
    evaluated before the category column is checked. *)
Theorem read_scores_short_frame_index_error (excel_bytes : bytes)
  (df : DataFrame) :
  read_excel excel_bytes = Ok df ->
  (length (columns df) < 2)%nat ->
  has_column "average score" (columns df) = false ->
  _read_scores_from_excel excel_bytes
    = Raise (IndexError "list index out of range").
Proof.
  intros Hr Hlen Havg.
  unfold _read_scores_from_excel; rewrite Hr; simpl.
  unfold scores_of_frame, resolve_columns.
  rewrite (resolve_avg_col_fallback _ Havg).
  rewrite py_index_short by lia. reflexivity.
Qed.

(** X18.  When the loaded worksheet has no column named
    "category" (trimmed, case-insensitive) and has a column named
    "average score" or at least two columns, the reader fails with the
    missing-column [ValueError].  Whenever the columns resolve, the category
    column is a column named "category", and the score column is a column
    named "average score" when there is one and the second column of the
    worksheet otherwise. *)
Theorem read_scores_column_resolution (excel_bytes : bytes) (df : DataFrame) :
  read_excel excel_bytes = Ok df ->
  (has_column "category" (columns df) = false ->
   has_column "average score" (columns df) = true
     \/ (2 <= length (columns df))%nat ->
   _read_scores_from_excel excel_bytes = Raise missing_column_error)
  /\ (forall cat_col avg_col,
        resolve_columns (columns df) = Ok (cat_col, avg_col) ->
        (In (LStr cat_col) (columns df)
         /\ PyStr.lower (PyStr.strip cat_col) = "category")
        /\ (has_column "average score" (columns df) = true ->
            exists c, avg_col = LStr c
                      /\ In (LStr c) (columns df)
                      /\ PyStr.lower (PyStr.strip c) = "average score")
        /\ (has_column "average score" (columns df) = false ->
            nth_error (columns df) 1 = Some avg_col)).
Proof.
  intros Hr. split.
  - intros Hcat Hor.
    unfold _read_scores_from_excel; rewrite Hr; simpl.
    unfold scores_of_frame, resolve_columns.
    pose proof (get_cols_map "category" (columns df)) as Hg.
    destruct (PyDict.get "category" (cols_map (columns df))) as [c|].
    { destruct Hg as (Hh & _); congruence. }
    assert (exists l, resolve_avg_col (columns df) = Ok l) as [l ->].
    { destruct (has_column "average score" (columns df)) eqn:Havg.
      - destruct (resolve_avg_col_named _ Havg) as (c & -> & _). eauto.
      - rewrite (resolve_avg_col_fallback _ Havg).
        destruct Hor as [|Hlen]; [discriminate|].
        apply py_index_long; lia. }
    reflexivity.
  - intros cat_col avg_col Hres.
    apply resolve_columns_ok in Hres as (Havg & Hcat).
    split; [|split].
    + pose proof (get_cols_map "category" (columns df)) as Hg.
      rewrite Hcat in Hg. destruct Hg as (_ & Hin & Hn); auto.
    + intros Hh. destruct (resolve_avg_col_named _ Hh) as (c & Hc & Hin & Hn).
      exists c. rewrite Hc in Havg. injection Havg as <-. auto.
    + intros Hh. rewrite (resolve_avg_col_fallback _ Hh) in Havg.
      unfold py_index in Havg.
      destruct (nth_error (columns df) 1); [|discriminate].
      injection Havg as <-. reflexivity.
Qed.

(** X19.  A row of the loaded worksheet for whose score cell [float] raises
    is left out without an error: once the columns are resolved, the reader
    returns a result, and it is the result for the worksheet without that
    row.  This holds whatever the category of the row is, in particular
    when it is non-blank and does not contain "overall". *)
Theorem read_scores_unparsable_row_omitted (excel_bytes : bytes)
  (df : DataFrame) (cat_col : string) (avg_col : label)
  (before after : list (list cell)) (r : list cell) :
  read_excel excel_bytes = Ok df ->
  resolve_columns (columns df) = Ok (cat_col, avg_col) ->
  rows df = before ++ r :: after ->
  to_num (row_get (columns df) r avg_col) = None ->
  exists res,
    _read_scores_from_excel excel_bytes = Ok res
    /\ scores_of_frame {| columns := columns df; rows := before ++ after |}
       = Ok res.
Proof.
  intros Hr Hc Hrows Hn.
  unfold _read_scores_from_excel; rewrite Hr; simpl.
  unfold scores_of_frame; simpl; rewrite Hc; simpl.
  eexists; split; [reflexivity|].
  f_equal. rewrite Hrows. unfold dropna.
  rewrite !List.filter_app, !fold_left_app; simpl.
  destruct (negb _); [|reflexivity].
  simpl. rewrite (scan_row_unparsable _ _ _ _ _ Hn). reflexivity.
Qed.

(** C3 (amended).  For the worksheet with the rows ("Cleanliness", 4.5),
    ("Staff", 3.8) and ("Overall Score", 4.1) the reader returns the
    categories "Cleanliness" and "Staff", trimmed and in the case of the
    sheet, with the scores 4.5 and 3.8, and the overall score 4.1.  For
    every worksheet, no returned category contains "overall" in any case,
    and there is one score per category. *)
Theorem read_scores_example_and_overall_excluded (excel_bytes : bytes) :
  (read_excel excel_bytes = Ok example_frame ->
   _read_scores_from_excel excel_bytes
     = Ok (["Cleanliness"; "Staff"], [4.5%float; 3.8%float], Some 4.1%float))
  /\ (forall cats scores overall,
        _read_scores_from_excel excel_bytes = Ok (cats, scores, overall) ->
        Forall (fun c => PyStr.contains "overall" (PyStr.lower c) = false) cats
        /\ length cats = length scores).
Proof.
  split.
  - intros Hr. unfold _read_scores_from_excel; rewrite Hr. reflexivity.
  - intros cats scores overall.
    unfold _read_scores_from_excel.
    destruct (read_excel excel_bytes) as [df|e]; simpl; [|discriminate].
    unfold scores_of_frame.
    destruct (resolve_columns (columns df)) as [[cat_col avg_col]|e]; simpl;
      [|discriminate].
    intros [= Hres]. split.
    + change cats with (fst (fst (cats, scores, overall))).
      rewrite <- Hres. apply scan_rows_no_overall. constructor.
    + change (length cats = length scores)
        with (length (fst (fst (cats, scores, overall)))
              = length (snd (fst (cats, scores, overall)))).
      rewrite <- Hres. apply scan_rows_lengths. reflexivity.
Qed.

End ScoreTable.

(** ** TemplateFiller *)

Lemma get_normalize_map (score_map : PyDict.dict float) (text : string) :
  PyDict.get (PyStr.lower (PyStr.strip text)) (normalize_map score_map)
  = matching_score score_map text.
Proof. unfold normalize_map, matching_score. apply get_of_pairs. Qed.

Lemma cell_text_set (s : string) (c : DocxCell) :
  cell_text (set_cell_text s c) = s.
Proof. reflexivity. Qed.

Lemma fill_row_fillable (score_map : PyDict.dict float) (row : DocxRow) :
  row_fillable score_map row = true ->
  fill_row (normalize_map score_map) row = Ok (filled_row score_map row).
Proof.
  destruct row as [|c0 rest]; simpl; [discriminate|].
  unfold fill_row; simpl.
  rewrite get_normalize_map.
  destruct (matching_score score_map (cell_text c0)) as [v|].
  - destruct rest as [|c1 rest]; [discriminate|]. reflexivity.
  - destruct rest; reflexivity.
Qed.

Lemma mapM_fill_rows (score_map : PyDict.dict float) (rs : list DocxRow) :
  Forall (fun row => row_fillable score_map row = true) rs ->
  mapM (fill_row (normalize_map score_map)) rs
  = Ok (map (filled_row score_map) rs).
Proof.
  induction 1 as [|row rs Hrow _ IH]; simpl; [reflexivity|].
  rewrite (fill_row_fillable _ _ Hrow); simpl.
  rewrite IH; reflexivity.
Qed.

(** Filling a filled row again gives the same row. *)
Lemma fill_row_again (norm : PyDict.dict float) (row row' : DocxRow) :
  fill_row norm row = Ok row' -> fill_row norm row' = Ok row'.
Proof.
  destruct row as [|c0 rest]; [discriminate|].
  unfold fill_row; simpl.
  destruct (PyDict.get _ norm) as [v|] eqn:Hg.
  - destruct rest as [|c1 rest]; [discriminate|].
    simpl. intros [= <-]. simpl. rewrite Hg. reflexivity.
  - simpl. intros [= <-]. simpl. rewrite Hg. reflexivity.
Qed.

Lemma mapM_fill_again (norm : PyDict.dict float) (rs rs' : list DocxRow) :
  mapM (fill_row norm) rs = Ok rs' -> mapM (fill_row norm) rs' = Ok rs'.
Proof.
  revert rs'; induction rs as [|row rs IH]; intros rs'; simpl.
  - intros [= <-]; reflexivity.
  - destruct (fill_row norm row) as [row'|e] eqn:Hrow; simpl; [|discriminate].
    destruct (mapM (fill_row norm) rs) as [rs1|e] eqn:Hrs; simpl; [|discriminate].
    intros [= <-]. simpl.
    rewrite (fill_row_again _ _ _ Hrow); simpl.
    rewrite (IH _ eq_refl); reflexivity.
Qed.

Lemma fill_table_again (norm : PyDict.dict float) (t t' : DocxTable) :
  fill_table norm t = Ok t' -> fill_table norm t' = Ok t'.
Proof.
  unfold fill_table.
  destruct (mapM (fill_row norm) (drop 1 t)) as [rs|e] eqn:Hrs; simpl;
    [|discriminate].
  intros [= <-].
  destruct t as [|h rest]; simpl in *.
  - injection Hrs as <-. reflexivity.
  - rewrite drop_0 in *.
    rewrite (mapM_fill_again _ _ _ Hrs); reflexivity.
Qed.

Lemma fill_document_again (score_map : PyDict.dict float) (doc doc' : Document) :
  fill_document score_map doc = Ok doc' ->
  fill_document score_map doc' = Ok doc'.
Proof.
  unfold fill_document.
  destruct (doc_tables doc) as [|t ts]; [discriminate|].
  destruct (fill_table (normalize_map score_map) t) as [t'|e] eqn:Ht; simpl;
    [|discriminate].
  intros [= <-]; simpl.
  rewrite (fill_table_again _ _ _ Ht); reflexivity.
Qed.

Section TemplateFiller.
Context `{DocxLib}.

(** C8 (amended).  A template without a table fails with the missing-table
    [ValueError].  For a template whose first table has, in every row after
    row 0, a first cell and, where that cell's text (trimmed, lowercased)
    equals a normalized key of the mapping, a second cell: the filler
    succeeds; the written document differs from the template in the first
    table only; that table keeps its number of rows and its row 0; and
    every later row is replaced by [filled_row] of it, that is, a row with
    a match gets the score formatted by [format_2f] as the text of its
    second cell and every other row is the row itself. *)
Theorem fill_word_scores_rows (now : Z) (template_bytes : bytes)
  (score_map : PyDict.dict float) (doc : Document) :
  load_docx template_bytes = Ok doc ->
  (doc_tables doc = [] ->
   _fill_word_scores now template_bytes score_map = Raise missing_table_error)
  /\ (forall t ts,
        doc_tables doc = t :: ts ->
        Forall (fun row => row_fillable score_map row = true) (drop 1 t) ->
        exists t',
          _fill_word_scores now template_bytes score_map
            = Ok (save_docx now {| doc_tables := t' :: ts;
                                   doc_rest := doc_rest doc |})
          /\ length t' = length t
          /\ nth_error t' 0 = nth_error t 0
          /\ (forall i row, (1 <= i)%nat -> nth_error t i = Some row ->
                nth_error t' i = Some (filled_row score_map row)))
  /\ (forall s c, cell_text (set_cell_text s c) = s).
Proof.
  intros Hl. split; [|split].
  - intros Ht. unfold _fill_word_scores; rewrite Hl; simpl.
    unfold fill_document; rewrite Ht; reflexivity.
  - intros t ts Ht Hrows.
    exists (take 1 t ++ map (filled_row score_map) (drop 1 t)).
    split; [|split; [|split]].
    + unfold _fill_word_scores; rewrite Hl; simpl.
      unfold fill_document; rewrite Ht.
      unfold fill_table. rewrite (mapM_fill_rows _ _ Hrows). reflexivity.
    + destruct t; simpl; [reflexivity|].
      rewrite drop_0, length_map; reflexivity.
    + destruct t; reflexivity.
    + intros i row Hi Hn.
      destruct t as [|h rest]; [destruct i; discriminate|].
      destruct i as [|i]; [lia|]. simpl in *.
      rewrite drop_0, nth_error_map, Hn; reflexivity.
  - apply cell_text_set.
Qed.

(** C4 (amended).  Filling is idempotent on the document.  When the
    template loads, the fill succeeds with the document [doc'] and the
    library reads the bytes written at time [now1] back as [doc'], then the
    filler applied at time [now2] to that output with the same mapping
    succeeds and writes [doc'] again.  The two outputs are the same bytes
    whenever the library writes [doc'] to the same bytes at both times, as
    it does when the two times are equal. *)
Theorem fill_word_scores_idempotent (now1 now2 : Z) (template_bytes : bytes)
  (score_map : PyDict.dict float) (doc doc' : Document) :
  load_docx template_bytes = Ok doc ->
  fill_document score_map doc = Ok doc' ->
  load_docx (save_docx now1 doc') = Ok doc' ->
  _fill_word_scores now1 template_bytes score_map = Ok (save_docx now1 doc')
  /\ _fill_word_scores now2 (save_docx now1 doc') score_map
     = Ok (save_docx now2 doc')
  /\ (save_docx now2 doc' = save_docx now1 doc' ->
      _fill_word_scores now2 (save_docx now1 doc') score_map
      = _fill_word_scores now1 template_bytes score_map).
Proof.
  intros Hl Hf Hrt.
  assert (_fill_word_scores now1 template_bytes score_map
          = Ok (save_docx now1 doc')) as H1.
  { unfold _fill_word_scores. rewrite Hl; simpl. rewrite Hf; reflexivity. }
  assert (_fill_word_scores now2 (save_docx now1 doc') score_map
          = Ok (save_docx now2 doc')) as H2.
  { unfold _fill_word_scores. rewrite Hrt; simpl.
    rewrite (fill_document_again _ _ _ Hf); reflexivity. }
  split; [exact H1|]. split; [exact H2|].
  intros Hsame. rewrite H1, H2, Hsame; reflexivity.
Qed.

End TemplateFiller.

(** ** DocumentMerger *)

Lemma add_pages_app {P : Type} (writer pages : list P) :
  add_pages writer pages = writer ++ pages.
Proof.
  unfold add_pages; revert writer.
  induction pages as [|p pages IH]; intros writer; simpl.
  - symmetry; apply app_nil_r.
  - rewrite IH, <- app_assoc; reflexivity.
Qed.

Section DocumentMerger.
Context `{PdfLib}.

Lemma add_optional_pages (writer : list page) (b : option bytes)
  (ps : list page) :
  optional_pages b = Ok ps -> add_optional writer b = Ok (writer ++ ps).
Proof.
  unfold optional_pages, add_optional.
  destruct (bytes_truthy b).
  - intros ->; simpl. rewrite add_pages_app; reflexivity.
  - intros [= <-]. rewrite app_nil_r; reflexivity.
Qed.

(** C6.  When the inputs read as the page lists [lc] (cover, empty when no
    cover is given), [ls] (scorecard) and [ln] (narrative, empty when none
    is given), the merger writes exactly the pages [lc ++ ls ++ ln]: cover
    first, then every scorecard page, then the narrative, in their order
    and with repetitions kept.  With two cover pages, one scorecard page
    and three narrative pages these are the six pages cover 1, cover 2,
    scorecard 1, narrative 1, 2, 3. *)
Theorem merge_pdfs_page_order (cover : option bytes) (scorecard : bytes)
  (narrative : option bytes) (lc ls ln : list page) :
  optional_pages cover = Ok lc ->
  PdfReader scorecard = Ok ls ->
  optional_pages narrative = Ok ln ->
  _merge_pdfs cover scorecard narrative = Ok (PdfWriter_write (lc ++ ls ++ ln))
  /\ (forall c1 c2 s1 n1 n2 n3,
        lc = [c1; c2] -> ls = [s1] -> ln = [n1; n2; n3] ->
        _merge_pdfs cover scorecard narrative
          = Ok (PdfWriter_write [c1; c2; s1; n1; n2; n3])
        /\ length (lc ++ ls ++ ln) = 6%nat).
Proof.
  intros Hc Hs Hn.
  assert (_merge_pdfs cover scorecard narrative
          = Ok (PdfWriter_write (lc ++ ls ++ ln))) as Hm.
  { unfold _merge_pdfs.
    rewrite (add_optional_pages [] _ _ Hc); simpl.
    rewrite Hs; simpl.
    rewrite add_pages_app, (add_optional_pages _ _ _ Hn); simpl.
    rewrite <- app_assoc; reflexivity. }
  split; [exact Hm|].
  intros c1 c2 s1 n1 n2 n3 -> -> ->. split; [exact Hm|reflexivity].
Qed.

End DocumentMerger.

(** ** PublishStore *)

Section PublishStore.
Context `{BlobLib}.

(** C2 (amended).  With a configured connection string that the client
    accepts, the outcome of [create_container], be it success, the container
    existing already or any other failure, is discarded: the publish goes on
    to the upload from the state the call left.  So a provisioning failure
    followed by a successful upload and signature ends in a URL, not in an
    error; a failure of the upload is surfaced. *)
Theorem upload_with_sas_ignores_create_outcome (cfg : Config) (bsc : Account)
  (name : string) (data : bytes) (w : World) :
  PyStr.truthy (CONN_STR cfg) = true ->
  from_connection_string (CONN_STR cfg) = Ok bsc ->
  (forall outcome w1,
     create_container bsc (CONTAINER cfg) w = (outcome, w1) ->
     _upload_with_sas cfg name data w = upload_and_sign cfg bsc name data w1)
  /\ (forall e w1 w2 sas,
        create_container bsc (CONTAINER cfg) w = (Raise e, w1) ->
        upload_blob bsc (CONTAINER cfg) name data w1 = (Ok tt, w2) ->
        generate_blob_sas (account_name bsc) (CONTAINER cfg) name
          (account_key bsc) (utcnow w2 + hours_24) = Ok sas ->
        _upload_with_sas cfg name data w
        = (Ok ("https://" +:+ account_name bsc +:+ ".blob.core.windows.net/"
                 +:+ CONTAINER cfg +:+ "/" +:+ name +:+ "?" +:+ sas), w2))
  /\ (forall outcome w1 e w2,
        create_container bsc (CONTAINER cfg) w = (outcome, w1) ->
        upload_blob bsc (CONTAINER cfg) name data w1 = (Raise e, w2) ->
        _upload_with_sas cfg name data w = (Raise e, w2)).
Proof.
  intros Hs Hc.
  assert (forall outcome w1,
            create_container bsc (CONTAINER cfg) w = (outcome, w1) ->
            _upload_with_sas cfg name data w
            = upload_and_sign cfg bsc name data w1) as Hgo.
  { intros outcome w1 Hcr. unfold _upload_with_sas.
    rewrite Hs, Hc, Hcr; reflexivity. }
  split; [exact Hgo|]. split.
  - intros e w1 w2 sas Hcr Hup Hsas.
    rewrite (Hgo _ _ Hcr). unfold upload_and_sign.
    rewrite Hup, Hsas; reflexivity.
  - intros outcome w1 e w2 Hcr Hup.
    rewrite (Hgo _ _ Hcr). unfold upload_and_sign. rewrite Hup; reflexivity.
Qed.

End PublishStore.

(** ** ReportPipeline *)

Section ReportPipeline.
Context `{Platform}.

(** C1 (amended).  When the [Content-Type] header is missing or does not
    contain [multipart/form-data], or when the decoder rejects the body,
    [_parse_multipart] raises, and the handler of [main] answers with
    status 500 and the message of the exception as body, leaving the
    storage untouched; for a bad header the exception is the [ValueError]
    of line 20. *)
Theorem main_malformed_request_500 (cfg : Config) (req : HttpRequest)
  (w : World) :
  ctype_ok (request_ctype req) = false
  \/ (exists e, MultipartDecoder (req_body req)
                  (default EmptyString (request_ctype req)) = Raise e) ->
  exists e,
    _parse_multipart req = Raise e
    /\ main cfg req w
       = ({| status_code := 500; body := exn_str e; resp_headers := [] |}, w)
    /\ (ctype_ok (request_ctype req) = false -> e = content_type_error).
Proof.
  intros Hbad.
  assert (exists e, _parse_multipart req = Raise e
                    /\ (ctype_ok (request_ctype req) = false
                        -> e = content_type_error)) as (e & He & Hct).
  { destruct (ctype_ok (request_ctype req)) eqn:Hc.
    - destruct Hbad as [|[e He]]; [discriminate|].
      exists e. rewrite (parse_multipart_decoder _ Hc), He.
      split; [reflexivity|discriminate].
    - exists content_type_error.
      rewrite (parse_multipart_raises _ Hc). auto. }
  exists e. split; [exact He|]. split; [|exact Hct].
  unfold main, pipeline. rewrite He. reflexivity.
Qed.

End ReportPipeline.

(** ** Runs on the examples *)

(** C1, counterexample: a request without a [Content-Type] header is answered
    with status 500, not 400. *)
Lemma main_missing_content_type_not_400 :
  ctype_ok (request_ctype bare_request) = false
  /\ status_code
       (fst (@main (test_platform (fixed_decoder example_parts)
                                  (fixed_excel example_frame))
               test_config bare_request locked_service)) = 500%Z
  /\ status_code
       (fst (@main (test_platform (fixed_decoder example_parts)
                                  (fixed_excel example_frame))
               test_config bare_request locked_service)) <> 400%Z.
Proof. repeat split. discriminate. Qed.

Lemma main_malformed_request_500_witness :
  exists e,
    @_parse_multipart (fixed_decoder example_parts) bare_request = Raise e
    /\ @main (test_platform (fixed_decoder example_parts)
                            (fixed_excel example_frame))
         test_config bare_request locked_service
       = ({| status_code := 500; body := exn_str e; resp_headers := [] |},
          locked_service)
    /\ (ctype_ok (request_ctype bare_request) = false -> e = content_type_error).
Proof.
  apply (@main_malformed_request_500
           (test_platform (fixed_decoder example_parts)
                          (fixed_excel example_frame))
           test_config bare_request locked_service).
  left; reflexivity.
Defined.

(** C2, counterexample: on a service where the container exists and the
    caller may not create containers, provisioning fails with an
    authorization error, not with "already exists", and the publish still
    returns a URL. *)
Lemma upload_with_sas_hides_authorization_failure :
  fst (@create_container memory_blob test_account "reports" locked_service)
    = Raise (LibraryError "AuthorizationPermissionMismatch")
  /\ fst (@_upload_with_sas memory_blob test_config "a.pdf" [Byte.x01]
            locked_service)
     = Ok "https://cjreports.blob.core.windows.net/reports/a.pdf?sp=r&se=86400000000&sig=c2VjcmV0".
Proof. split; vm_compute; reflexivity. Qed.

Lemma upload_with_sas_ignores_create_outcome_witness :
  PyStr.truthy (CONN_STR test_config) = true
  /\ @from_connection_string memory_blob (CONN_STR test_config) = Ok test_account
  /\ (forall outcome w1,
        @create_container memory_blob test_account (CONTAINER test_config)
          locked_service = (outcome, w1) ->
        @_upload_with_sas memory_blob test_config "a.pdf" [Byte.x01]
          locked_service
        = @upload_and_sign memory_blob test_config test_account "a.pdf"
            [Byte.x01] w1).
Proof.
  split; [reflexivity|]. split; [reflexivity|].
  apply (proj1 (@upload_with_sas_ignores_create_outcome memory_blob
                  test_config test_account "a.pdf" [Byte.x01] locked_service
                  eq_refl eq_refl)).
Defined.

(** C3, counterexample: the categories of the example come back in the case
    of the sheet, not lowercased. *)
Lemma read_scores_example_not_lowercased :
  @_read_scores_from_excel (fixed_excel example_frame) test_runtime []
  <> Ok (["cleanliness"; "staff"], [4.5%float; 3.8%float], Some 4.1%float).
Proof. vm_compute. intros Heq. discriminate Heq. Qed.

Lemma read_scores_example_and_overall_excluded_witness :
  @read_excel (fixed_excel example_frame) [] = Ok example_frame
  /\ @_read_scores_from_excel (fixed_excel example_frame) test_runtime []
     = Ok (["Cleanliness"; "Staff"], [4.5%float; 3.8%float], Some 4.1%float)
  /\ Forall (fun c => PyStr.contains "overall" (PyStr.lower c) = false)
       ["Cleanliness"; "Staff"].
Proof.
  split; [reflexivity|].
  destruct (@read_scores_example_and_overall_excluded
              (fixed_excel example_frame) test_runtime []) as [Hex Hall].
  split; [exact (Hex eq_refl)|].
  exact (proj1 (Hall _ _ _ (Hex eq_refl))).
Defined.

(** C5.  On a worksheet whose only column is "Notes" there is no category
    column, and the reader fails with the [IndexError] of the positional
    fallback of line 42 instead of the missing-column [ValueError] that
    lines 43-44 raise for a missing category column: the fallback is
    evaluated before the check. *)
Lemma read_scores_single_column_not_missing_column :
  has_column "category" (columns notes_only_frame) = false
  /\ @_read_scores_from_excel (fixed_excel notes_only_frame) test_runtime []
     = Raise (IndexError "list index out of range")
  /\ @_read_scores_from_excel (fixed_excel notes_only_frame) test_runtime []
     <> Raise missing_column_error.
Proof. repeat split. discriminate. Qed.

Lemma read_scores_column_resolution_witness :
  @read_excel (fixed_excel no_category_frame) [] = Ok no_category_frame
  /\ has_column "category" (columns no_category_frame) = false
  /\ has_column "average score" (columns no_category_frame) = true
  /\ @_read_scores_from_excel (fixed_excel no_category_frame) test_runtime []
     = Raise missing_column_error.
Proof.
  split; [reflexivity|]. split; [reflexivity|]. split; [reflexivity|].
  apply (proj1 (@read_scores_column_resolution (fixed_excel no_category_frame)
                  test_runtime [] no_category_frame eq_refl));
    [reflexivity|left; reflexivity].
Defined.

Lemma read_scores_unparsable_row_omitted_witness :
  @to_num test_runtime (CText "N/A") = None
  /\ exists res,
       @_read_scores_from_excel (fixed_excel noted_frame) test_runtime []
         = Ok res
       /\ @scores_of_frame test_runtime
            {| columns := columns noted_frame;
               rows := [ [CText "Cleanliness"; CNum 4.5] ]
                       ++ [ [CText "Staff"; CNum 3.8] ] |}
          = Ok res.
Proof.
  split; [reflexivity|].
  apply (@read_scores_unparsable_row_omitted (fixed_excel noted_frame)
           test_runtime [] noted_frame "Category" (LStr "Average Score")
           [ [CText "Cleanliness"; CNum 4.5] ] [ [CText "Staff"; CNum 3.8] ]
           [CText "Parking"; CText "N/A"]);
    reflexivity.
Defined.

(** C7.  A row with an ordinary category and an empty score cell is not
    omitted.  The empty cell is NaN, which is not a real number, but
    [float] accepts it, so [to_num] does not return [None] and lines 58-60
    append the row with the score NaN; the filler and the scorecard would
    write it as "nan". *)
Lemma read_scores_blank_score_cell_kept :
  isna (CNum nan) = true
  /\ @to_num test_runtime (CNum nan) = Some nan
  /\ @_read_scores_from_excel
       (fixed_excel {| columns := columns example_frame;
                       rows := rows example_frame ++ [blank_score_row] |})
       test_runtime []
     = Ok (["Cleanliness"; "Staff"; "Parking"],
           [4.5%float; 3.8%float; nan], Some 4.1%float)
  /\ format_2f nan = "nan".
Proof. repeat split. Qed.

Lemma read_scores_short_frame_index_error_witness :
  has_column "category" (columns category_only_frame) = true
  /\ @_read_scores_from_excel (fixed_excel category_only_frame) test_runtime []
     = Raise (IndexError "list index out of range").
Proof.
  split; [reflexivity|].
  apply (@read_scores_short_frame_index_error (fixed_excel category_only_frame)
           test_runtime [] category_only_frame);
    [reflexivity | repeat constructor | reflexivity].
Defined.

(** C8, counterexample: a template whose first table has a single column
    and a row matching a key is not filled; the filler raises an
    [IndexError]. *)
Lemma fill_word_scores_one_column_raises :
  (exists doc t ts,
     @load_docx line_docx one_column_template = Ok doc
     /\ doc_tables doc = t :: ts
     /\ nth_error t 1 = Some [text_cell "Staff"]
     /\ matching_score example_scores "Staff" = Some 3.8%float)
  /\ @_fill_word_scores line_docx 0%Z one_column_template example_scores
     = Raise (IndexError "list index out of range").
Proof.
  split; [|reflexivity].
  eexists _, _, _. repeat split; reflexivity.
Qed.

Lemma fill_word_scores_rows_witness :
  exists t',
    @_fill_word_scores line_docx 0%Z review_template example_scores
      = Ok (@save_docx line_docx 0%Z
              {| doc_tables := [t']; doc_rest := EmptyString |})
    /\ nth_error t' 2
       = Some [text_cell " STAFF "; text_cell "3.80"]
    /\ nth_error t' 3
       = Some [text_cell "Notes"; text_cell "see appendix"].
Proof.
  destruct (@fill_word_scores_rows line_docx 0%Z review_template
              example_scores _ eq_refl) as (_ & Hrows & _).
  vm_compute doc_tables in Hrows.
  destruct (Hrows _ _ eq_refl) as (t' & Hfill & _ & _ & Hrow).
  { repeat constructor. }
  exists t'. split; [exact Hfill|]. split.
  - rewrite (Hrow 2%nat _ ltac:(repeat constructor) eq_refl). reflexivity.
  - rewrite (Hrow 3%nat _ ltac:(repeat constructor) eq_refl). reflexivity.
Defined.

(** C4, counterexample.  With a library that stamps the package with the
    time of writing, the stamped review template is filled at time 0, and
    the output is filled again four seconds later with the same mapping: both
    fills succeed and write the same document, but the bytes differ.  And
    for the one-column template, which has a table, the fill raises, so
    there is no output to fill again. *)
Lemma fill_word_scores_bytes_differ_over_time :
  (exists out1 out2,
     @_fill_word_scores stamped_docx 0%Z (Byte.x00 :: review_template)
       example_scores = Ok out1
     /\ @_fill_word_scores stamped_docx 4000000%Z out1 example_scores = Ok out2
     /\ @load_docx stamped_docx out1 = @load_docx stamped_docx out2
     /\ out1 <> out2)
  /\ (exists doc t ts,
        @load_docx line_docx one_column_template = Ok doc
        /\ doc_tables doc = t :: ts
        /\ @_fill_word_scores line_docx 0%Z one_column_template example_scores
           = Raise (IndexError "list index out of range")).
Proof.
  split.
  - eexists _, _. split; [vm_compute; reflexivity|].
    split; [vm_compute; reflexivity|].
    split; [vm_compute; reflexivity|]. discriminate.
  - eexists _, _, _. repeat split; reflexivity.
Qed.

Lemma fill_word_scores_idempotent_witness :
  exists out,
    @_fill_word_scores line_docx 0%Z review_template example_scores = Ok out
    /\ @_fill_word_scores line_docx 4000000%Z out example_scores = Ok out.
Proof.
  destruct (@load_docx line_docx review_template) as [doc|e] eqn:Hl;
    [|discriminate Hl].
  destruct (fill_document example_scores doc) as [doc'|e] eqn:Hf.
  - exists (@save_docx line_docx 0%Z doc').
    assert (@load_docx line_docx (@save_docx line_docx 0%Z doc') = Ok doc')
      as Hrt.
    { clear - Hl Hf. injection Hl as <-. vm_compute in Hf.
      injection Hf as <-. reflexivity. }
    destruct (@fill_word_scores_idempotent line_docx 0%Z 4000000%Z
                review_template example_scores doc doc' Hl Hf Hrt)
      as (H1 & H2 & _).
    split; [exact H1|exact H2].
  - injection Hl as <-. vm_compute in Hf. discriminate Hf.
Defined.

Lemma merge_pdfs_page_order_witness :
  @_merge_pdfs byte_pdf (Some [Byte.x01; Byte.x02]) [Byte.x10]
    (Some [Byte.x21; Byte.x22; Byte.x23])
  = Ok [Byte.x01; Byte.x02; Byte.x10; Byte.x21; Byte.x22; Byte.x23].
Proof.
  apply (proj1 (@merge_pdfs_page_order byte_pdf (Some [Byte.x01; Byte.x02])
                  [Byte.x10] (Some [Byte.x21; Byte.x22; Byte.x23])
                  [Byte.x01; Byte.x02] [Byte.x10]
                  [Byte.x21; Byte.x22; Byte.x23] eq_refl eq_refl eq_refl)).
Defined.


(** * Further properties *)

(** ** Publishing *)

Section StoreFacts.
Context `{BlobLib}.

Lemma upload_unconfigured (cfg : Config) (name : string) (data : bytes)
  (w : World) :
  PyStr.truthy (CONN_STR cfg) = false ->
  _upload_with_sas cfg name data w = (Raise not_configured_error, w).
Proof. unfold _upload_with_sas; intros ->; reflexivity. Qed.

(** X6.  A URL comes back from [_upload_with_sas] only when the connection
    string is set and accepted, the upload itself succeeded and the signature
    was issued; the signature expires 24 hours after the time read once the
    upload is done, the URL names the account, the container and the blob,
    and the state returned is the one the upload left. *)
Theorem upload_with_sas_ok_inversion (cfg : Config) (name : string)
  (data : bytes) (w w' : World) (url : string) :
  _upload_with_sas cfg name data w = (Ok url, w') ->
  PyStr.truthy (CONN_STR cfg) = true
  /\ exists bsc sas,
       from_connection_string (CONN_STR cfg) = Ok bsc
       /\ upload_blob bsc (CONTAINER cfg) name data
            (snd (create_container bsc (CONTAINER cfg) w)) = (Ok tt, w')
       /\ generate_blob_sas (account_name bsc) (CONTAINER cfg) name
            (account_key bsc) (utcnow w' + hours_24) = Ok sas
       /\ url = blob_url (account_name bsc) (CONTAINER cfg) name sas.
Proof.
  unfold _upload_with_sas.
  destruct (PyStr.truthy (CONN_STR cfg)); simpl; [|discriminate].
  destruct (from_connection_string (CONN_STR cfg)) as [bsc|e]; [|discriminate].
  unfold upload_and_sign.
  destruct (upload_blob bsc (CONTAINER cfg) name data _) as [[[]|e] w2] eqn:Hup;
    [|discriminate].
  destruct (generate_blob_sas _ _ _ _ _) as [sas|e] eqn:Hsas; simpl;
    [|discriminate].
  intros [= <- <-]. split; [reflexivity|].
  exists bsc, sas. auto.
Qed.

End StoreFacts.

(** ** The pipeline as a whole *)

Section PipelineFacts.
Context `{Platform}.

Lemma assemble_documents (cfg : Config) (excel_bytes word_bytes : bytes)
  (cover_bytes narr_bytes : option bytes) (w : World) :
  assemble cfg excel_bytes word_bytes cover_bytes narr_bytes w =
  match build_documents (utcnow w) excel_bytes word_bytes cover_bytes
          narr_bytes with
  | Raise e => (Raise e, w)
  | Ok (final_pdf, filled_docx_bytes) =>
      let ts := strftime_stamp (utcnow w) in
      match _upload_with_sas cfg (report_name ts) final_pdf w with
      | (Raise e, w1) => (Raise e, w1)
      | (Ok pdf_url, w1) =>
          match _upload_with_sas cfg (narrative_name ts) filled_docx_bytes w1 with
          | (Raise e, w2) => (Raise e, w2)
          | (Ok docx_url, w2) => (Ok (success_response pdf_url docx_url), w2)
          end
      end
  end.
Proof. reflexivity. Qed.

(** X1.  Whatever the request, the configuration and the state of the
    storage service, [main] answers with status 200, 400 or 500. *)
Theorem main_status_codes (cfg : Config) (req : HttpRequest) (w : World) :
  status_code (fst (main cfg req w)) = 200%Z
  \/ status_code (fst (main cfg req w)) = 400%Z
  \/ status_code (fst (main cfg req w)) = 500%Z.
Proof.
  unfold main, pipeline.
  destruct (_parse_multipart req) as [files|e]; [|right; right; reflexivity].
  destruct (PyDict.get "excel" files) as [ex|];
    [|right; left; reflexivity].
  destruct (PyDict.get "word_template" files) as [wt|];
    [|right; left; reflexivity].
  rewrite assemble_documents.
  destruct (build_documents _ _ _ _ _) as [[final_pdf filled]|e];
    [|right; right; reflexivity].
  cbv zeta.
  destruct (_upload_with_sas cfg _ final_pdf w) as [[pdf_url|e] w1];
    [|right; right; reflexivity].
  destruct (_upload_with_sas cfg _ filled w1) as [[docx_url|e] w2];
    [left|right; right]; reflexivity.
Qed.

(** X2.  A response with status 200 is only given after everything went
    through: both required parts were found, the documents were built, the
    merged PDF was uploaded first and the filled template second, under the
    names [CJ_Report_<ts>.pdf] and [CJ_Narrative_<ts>.docx] with one and the
    same time stamp taken before the first upload; the body is the JSON
    object of the two URLs and the state returned is the one the second
    upload left. *)
Theorem main_ok_inversion (cfg : Config) (req : HttpRequest) (w : World) :
  status_code (fst (main cfg req w)) = 200%Z ->
  exists files ex wt final_pdf filled pdf_url docx_url w1,
    _parse_multipart req = Ok files
    /\ PyDict.get "excel" files = Some ex
    /\ PyDict.get "word_template" files = Some wt
    /\ build_documents (utcnow w) (content ex) (content wt)
         (content_of (PyDict.get "cover_pdf" files))
         (content_of (PyDict.get "narrative_pdf" files))
       = Ok (final_pdf, filled)
    /\ _upload_with_sas cfg (report_name (strftime_stamp (utcnow w)))
         final_pdf w = (Ok pdf_url, w1)
    /\ _upload_with_sas cfg (narrative_name (strftime_stamp (utcnow w)))
         filled w1 = (Ok docx_url, snd (main cfg req w))
    /\ fst (main cfg req w) = success_response pdf_url docx_url.
Proof.
  unfold main, pipeline.
  destruct (_parse_multipart req) as [files|e]; [|discriminate].
  destruct (PyDict.get "excel" files) as [ex|] eqn:Hex; [|discriminate].
  destruct (PyDict.get "word_template" files) as [wt|] eqn:Hwt; [|discriminate].
  rewrite assemble_documents.
  destruct (build_documents _ _ _ _ _) as [[final_pdf filled]|e] eqn:Hb;
    [|discriminate].
  cbv zeta.
  destruct (_upload_with_sas cfg _ final_pdf w) as [[pdf_url|e] w1] eqn:Hu1;
    [|discriminate].
  destruct (_upload_with_sas cfg _ filled w1) as [[docx_url|e] w2] eqn:Hu2;
    [|discriminate].
  intros _. exists files, ex, wt, final_pdf, filled, pdf_url, docx_url, w1.
  simpl. auto 10.
Qed.

(** X3.  When the body decodes into parts none of which is stored under
    [excel], or none of which is stored under [word_template], [main]
    answers with status 400 and the fixed message, and the storage service
    is left as it was. *)
Theorem main_missing_part_400 (cfg : Config) (req : HttpRequest)
  (parts : list BodyPart) (w : World) :
  ctype_ok (request_ctype req) = true ->
  MultipartDecoder (req_body req) (default EmptyString (request_ctype req))
    = Ok parts ->
  List.filter (stored_as "excel") parts = []
  \/ List.filter (stored_as "word_template") parts = [] ->
  main cfg req w = (missing_part_response, w).
Proof.
  intros Hc Hd Hmiss.
  unfold main, pipeline.
  rewrite (parse_multipart_decoder _ Hc), Hd; simpl.
  rewrite foldM_add_part, !get_store_parts.
  destruct Hmiss as [-> | ->]; simpl.
  - reflexivity.
  - destruct (last (List.filter (stored_as "excel") parts)); reflexivity.
Qed.

(** X4.  When both required parts are present and the reader, the renderer,
    the filler or the merger raises, [main] answers with status 500 and the
    message of that exception, and the storage service is left as it was:
    nothing is uploaded before all documents are built. *)
Theorem main_document_failure_500 (cfg : Config) (req : HttpRequest)
  (files : PyDict.dict FileEntry) (ex wt : FileEntry) (e : exn) (w : World) :
  _parse_multipart req = Ok files ->
  PyDict.get "excel" files = Some ex ->
  PyDict.get "word_template" files = Some wt ->
  (_read_scores_from_excel (content ex) = Raise e
   \/ exists cats scores overall,
        _read_scores_from_excel (content ex) = Ok (cats, scores, overall)
        /\ (_build_scorecard_pdf cats scores overall = Raise e
            \/ exists scorecard,
                 _build_scorecard_pdf cats scores overall = Ok scorecard
                 /\ (_fill_word_scores (utcnow w) (content wt)
                       (PyDict.of_pairs (combine cats scores)) = Raise e
                     \/ exists filled,
                          _fill_word_scores (utcnow w) (content wt)
                            (PyDict.of_pairs (combine cats scores)) = Ok filled
                          /\ _merge_pdfs
                               (content_of (PyDict.get "cover_pdf" files))
                               scorecard
                               (content_of (PyDict.get "narrative_pdf" files))
                             = Raise e))) ->
  main cfg req w = (error_response e, w).
Proof.
  intros Hp Hex Hwt Hfail.
  unfold main, pipeline. rewrite Hp, Hex, Hwt, assemble_documents.
  assert (build_documents (utcnow w) (content ex) (content wt)
            (content_of (PyDict.get "cover_pdf" files))
            (content_of (PyDict.get "narrative_pdf" files)) = Raise e) as ->.
  { unfold build_documents.
    destruct Hfail as [-> | (cats & scores & overall & -> & Hfail)];
      [reflexivity|]. simpl.
    destruct Hfail as [-> | (scorecard & -> & Hfail)]; [reflexivity|]. simpl.
    destruct Hfail as [-> | (filled & -> & ->)]; reflexivity. }
  reflexivity.
Qed.

(** X5.  When the environment does not set the connection string, or sets
    it to the empty string, no request is answered with status 200 and no
    request changes the storage service. *)
Theorem main_unconfigured_never_publishes (env : PyDict.dict string)
  (req : HttpRequest) (w : World) :
  PyStr.opt_truthy (PyDict.get "AZURE_STORAGE_CONNECTION_STRING" env) = false ->
  snd (main (config_of_env env) req w) = w
  /\ status_code (fst (main (config_of_env env) req w)) <> 200%Z.
Proof.
  intros Henv.
  assert (PyStr.truthy (CONN_STR (config_of_env env)) = false) as Hcs.
  { unfold config_of_env; simpl.
    destruct (PyDict.get "AZURE_STORAGE_CONNECTION_STRING" env) as [s|];
      [exact Henv|reflexivity]. }
  unfold main, pipeline.
  destruct (_parse_multipart req) as [files|e]; [|split; [reflexivity|discriminate]].
  destruct (PyDict.get "excel" files) as [ex|];
    [|split; [reflexivity|discriminate]].
  destruct (PyDict.get "word_template" files) as [wt|];
    [|split; [reflexivity|discriminate]].
  rewrite assemble_documents.
  destruct (build_documents _ _ _ _ _) as [[final_pdf filled]|e];
    [|split; [reflexivity|discriminate]].
  cbv zeta. rewrite (upload_unconfigured _ _ _ _ Hcs).
  split; [reflexivity|discriminate].
Qed.

End PipelineFacts.

(** ** The score table, read and rendered *)

Section ScoreTableFacts.
Context `{ExcelLib} `{PyFloat}.

Lemma scan_row_blank cols cat_col avg_col acc r :
  PyStr.truthy (row_name cols cat_col r) = false ->
  scan_row cols cat_col avg_col acc r = acc.
Proof.
  unfold row_name, scan_row; intros ->.
  destruct acc as [[cats scores] overall]; reflexivity.
Qed.

Lemma scan_row_entry cols cat_col avg_col cats scores overall r :
  scan_row cols cat_col avg_col (cats, scores, overall) r =
  (cats ++ map fst (option_list (category_entry cols cat_col avg_col r)),
   scores ++ map snd (option_list (category_entry cols cat_col avg_col r)),
   match overall_entry cols cat_col avg_col r with
   | Some v => Some v
   | None => overall
   end).
Proof.
  unfold scan_row, category_entry, overall_entry, row_name, row_score,
    is_overall.
  destruct (PyStr.truthy _); simpl; [|rewrite !app_nil_r; reflexivity].
  destruct (PyStr.contains _ _); simpl.
  - rewrite !app_nil_r. destruct (to_num _); reflexivity.
  - destruct (to_num _); simpl; [reflexivity|rewrite !app_nil_r; reflexivity].
Qed.

(** The loop of lines 50-60 as a selection: the categories are the entries
    of the rows in order, the overall score is the last overall entry. *)
Lemma scan_rows_entries cols cat_col avg_col rs cats scores overall :
  fold_left (scan_row cols cat_col avg_col) rs (cats, scores, overall) =
  (cats ++ map fst (omap (category_entry cols cat_col avg_col) rs),
   scores ++ map snd (omap (category_entry cols cat_col avg_col) rs),
   match last (omap (overall_entry cols cat_col avg_col) rs) with
   | Some v => Some v
   | None => overall
   end).
Proof.
  revert cats scores overall.
  induction rs as [|r rs IH]; intros cats scores overall.
  - simpl. rewrite !app_nil_r; reflexivity.
  - cbn [fold_left]. rewrite scan_row_entry, IH.
    change (omap ?f (r :: rs))
      with (match f r with Some y => y :: omap f rs | None => omap f rs end).
    destruct (category_entry cols cat_col avg_col r) as [[n v]|];
      destruct (overall_entry cols cat_col avg_col r) as [o|]; simpl;
      rewrite <- ?app_assoc, ?app_nil_r, ?last_cons; simpl;
      try reflexivity;
      destruct (last _); reflexivity.
Qed.

(** X7.  Once the worksheet is loaded and its columns are resolved, the
    reader returns, in the order of the sheet and with repetitions kept, the
    trimmed name and the score of every row that has a category cell, a
    non-blank name without "overall" and a score that converts; the overall
    score is that of the last row with "overall" in its name and a score that
    converts, and is absent when there is no such row. *)
Theorem read_scores_selects_rows (excel_bytes : bytes) (df : DataFrame)
  (cat_col : string) (avg_col : label) :
  read_excel excel_bytes = Ok df ->
  resolve_columns (columns df) = Ok (cat_col, avg_col) ->
  _read_scores_from_excel excel_bytes =
  Ok (map fst (omap (category_entry (columns df) cat_col avg_col)
                 (dropna (columns df) cat_col (rows df))),
      map snd (omap (category_entry (columns df) cat_col avg_col)
                 (dropna (columns df) cat_col (rows df))),
      last (omap (overall_entry (columns df) cat_col avg_col)
              (dropna (columns df) cat_col (rows df)))).
Proof.
  intros Hr Hc.
  unfold _read_scores_from_excel; rewrite Hr; simpl.
  unfold scores_of_frame; rewrite Hc; simpl.
  rewrite scan_rows_entries; simpl.
  destruct (last _); reflexivity.
Qed.

(** X8.  A row without a category cell (NaN) or with a name that is blank
    after trimming is ignored, whatever its score: the reader returns what it
    returns for the worksheet without that row. *)
Theorem read_scores_blank_category_ignored (excel_bytes : bytes)
  (df : DataFrame) (cat_col : string) (avg_col : label)
  (before after : list (list cell)) (r : list cell) :
  read_excel excel_bytes = Ok df ->
  resolve_columns (columns df) = Ok (cat_col, avg_col) ->
  rows df = before ++ r :: after ->
  isna (row_get (columns df) r (LStr cat_col)) = true
  \/ PyStr.truthy (row_name (columns df) cat_col r) = false ->
  exists res,
    _read_scores_from_excel excel_bytes = Ok res
    /\ scores_of_frame {| columns := columns df; rows := before ++ after |}
       = Ok res.
Proof.
  intros Hr Hc Hrows Hblank.
  unfold _read_scores_from_excel; rewrite Hr; simpl.
  unfold scores_of_frame; simpl; rewrite Hc; simpl.
  eexists; split; [reflexivity|].
  f_equal. rewrite Hrows. unfold dropna.
  rewrite !List.filter_app, !fold_left_app; simpl.
  destruct Hblank as [-> | Hb]; simpl; [reflexivity|].
  destruct (negb _); [|reflexivity].
  simpl. rewrite (scan_row_blank _ _ _ _ _ Hb). reflexivity.
Qed.

(** X9.  A last row with a text category, non-blank and without "overall",
    and a float in its score cell is appended with that float as it is,
    also when the float is the NaN of an empty cell: an empty score cell
    does not make the row drop out. *)
Theorem read_scores_float_cell_kept (excel_bytes : bytes) (df : DataFrame)
  (cat_col : string) (avg_col : label) (before : list (list cell))
  (r : list cell) (c : string) (x : float) :
  read_excel excel_bytes = Ok df ->
  resolve_columns (columns df) = Ok (cat_col, avg_col) ->
  rows df = before ++ [r] ->
  row_get (columns df) r (LStr cat_col) = CText c ->
  row_get (columns df) r avg_col = CNum x ->
  PyStr.truthy (PyStr.strip c) = true ->
  is_overall (PyStr.strip c) = false ->
  exists cats scores overall,
    scores_of_frame {| columns := columns df; rows := before |}
      = Ok (cats, scores, overall)
    /\ _read_scores_from_excel excel_bytes
       = Ok (cats ++ [PyStr.strip c], scores ++ [x], overall).
Proof.
  intros Hr Hc Hrows Hcat Havg Ht Ho.
  unfold _read_scores_from_excel; rewrite Hr; simpl.
  unfold scores_of_frame; simpl; rewrite Hc; simpl.
  destruct (fold_left (scan_row (columns df) cat_col avg_col)
              (dropna (columns df) cat_col before) ([], [], None))
    as [[cats scores] overall] eqn:Hfold.
  exists cats, scores, overall. split; [reflexivity|].
  f_equal. rewrite Hrows. unfold dropna in *.
  rewrite List.filter_app, fold_left_app, Hfold; simpl.
  rewrite Hcat; simpl.
  unfold scan_row. rewrite Hcat, Havg; simpl.
  unfold is_overall in Ho. rewrite Ht, Ho; reflexivity.
Qed.

(** X11.  The table handed to the renderer has a header row, one row per
    pair of a category and a score with the score rounded by [round(s, 2)],
    and a closing "Overall Average" row whose second cell is the rounded
    overall score, or the empty string when there is none; every row has two
    cells. *)
Theorem scorecard_data_shape (categories : list string) (scores : list float)
  (overall : option float) :
  Forall (fun row => length row = 2%nat)
         (scorecard_data categories scores overall)
  /\ length (scorecard_data categories scores overall)
     = (Nat.min (length categories) (length scores) + 2)%nat
  /\ head (scorecard_data categories scores overall)
     = Some [TStr "Category"; TStr "Average Score (1-5)"]
  /\ (forall i c s,
        nth_error categories i = Some c -> nth_error scores i = Some s ->
        nth_error (scorecard_data categories scores overall) (S i)
        = Some [TStr c; TNum (round2 s)])
  /\ last (scorecard_data categories scores overall)
     = Some [TStr "Overall Average";
             match overall with
             | Some o => TNum (round2 o)
             | None => TStr EmptyString
             end].
Proof.
  unfold scorecard_data.
  split; [|split; [|split; [|split]]].
  - apply Forall_app; split; [repeat constructor|].
    apply Forall_app; split; [|repeat constructor].
    apply Forall_map, Forall_forall; reflexivity.
  - simpl. rewrite length_app, length_map, length_combine; simpl. lia.
  - reflexivity.
  - intros i c s Hc Hs. simpl.
    rewrite nth_error_app1.
    + rewrite nth_error_map.
      assert (nth_error (combine categories scores) i = Some (c, s)) as ->;
        [|reflexivity].
      revert scores i Hc Hs.
      induction categories as [|c0 cs IH]; intros [|s0 ss] [|i]; simpl;
        try discriminate.
      * intros [= ->] [= ->]; reflexivity.
      * apply IH.
    + rewrite length_map, length_combine.
      assert (i < length categories)%nat
        by (apply nth_error_Some; congruence).
      assert (i < length scores)%nat by (apply nth_error_Some; congruence).
      lia.
  - rewrite app_assoc. apply last_snoc.
Qed.

End ScoreTableFacts.

(** ** From the sheet to the template *)

Lemma last_value_In {V} (k : string) (v : V) (ps : list (string * V)) :
  last_value k ps = Some v -> In (k, v) ps.
Proof.
  induction ps as [|kv ps IH] using rev_ind; [discriminate|].
  rewrite last_value_snoc. destruct kv as [k0 v0]; simpl.
  destruct (String.eqb_spec k k0) as [Heq|Hne].
  - intros [= <-]. subst k0. apply in_or_app; right; left; reflexivity.
  - intros Hl. apply in_or_app; left; auto.
Qed.

Lemma last_value_found {V} (k : string) (v : V) (ps : list (string * V)) :
  In (k, v) ps -> exists v', last_value k ps = Some v'.
Proof.
  induction ps as [|kv ps IH] using rev_ind; [intros []|].
  rewrite last_value_snoc. intros Hin.
  destruct (String.eqb_spec k (fst kv)) as [Heq|Hne]; [eauto|].
  apply in_app_or in Hin as [Hin|[Hin|[]]]; [auto|].
  subst kv; simpl in Hne; congruence.
Qed.

Lemma get_In {V} (k : string) (v : V) (d : PyDict.dict V) :
  PyDict.get k d = Some v -> In (k, v) d.
Proof.
  induction d as [|[k0 v0] d IH]; simpl; [discriminate|].
  destruct (String.eqb_spec k k0) as [->|Hne].
  - intros [= ->]; left; reflexivity.
  - intros Hg; right; auto.
Qed.

Lemma In_set {V} (kv : string * V) (k : string) (v : V) (d : PyDict.dict V) :
  In kv (PyDict.set k v d) -> kv = (k, v) \/ In kv d.
Proof.
  induction d as [|[k0 v0] d IH]; simpl.
  - intros [<-|[]]; left; reflexivity.
  - destruct (String.eqb_spec k k0) as [->|Hne]; simpl.
    + intros [<-|Hin]; [left; reflexivity|right; right; assumption].
    + intros [<-|Hin]; [right; left; reflexivity|].
      destruct (IH Hin); [left|right; right]; assumption.
Qed.

Lemma In_of_pairs {V} (kv : string * V) (ps : list (string * V)) :
  In kv (PyDict.of_pairs ps) -> In kv ps.
Proof.
  unfold PyDict.of_pairs.
  induction ps as [|p ps IH] using rev_ind; [intros []|].
  rewrite fold_left_app; simpl. intros Hin.
  apply In_set in Hin as [->|Hin]; apply in_or_app.
  - right; left; destruct p; reflexivity.
  - left; auto.
Qed.

(** X10.  The mapping [main] builds from the reader's categories and scores
    serves the filler as follows.  The score found for the text of a first
    cell is the score of a returned category whose name, trimmed and
    lowercased, equals the text, trimmed and lowercased; and whenever such a
    category exists, a score is found. *)
Theorem sheet_scores_reach_template (cats : list string) (scores : list float)
  (text : string) :
  (forall v,
     matching_score (PyDict.of_pairs (combine cats scores)) text = Some v ->
     exists c, In (c, v) (combine cats scores)
               /\ PyStr.lower (PyStr.strip c) = PyStr.lower (PyStr.strip text))
  /\ (forall c v,
        In (c, v) (combine cats scores) ->
        PyStr.lower (PyStr.strip c) = PyStr.lower (PyStr.strip text) ->
        exists v',
          matching_score (PyDict.of_pairs (combine cats scores)) text = Some v').
Proof.
  unfold matching_score. split.
  - intros v Hm. apply last_value_In in Hm.
    apply in_map_iff in Hm as ([c v0] & [= Hk ->] & Hin).
    exists c. split; [apply In_of_pairs, Hin|exact Hk].
  - intros c v Hin Hk.
    destruct (last_value_found _ _ _ Hin) as [v1 Hv1].
    rewrite <- get_of_pairs in Hv1. apply get_In in Hv1.
    eapply last_value_found. rewrite <- Hk.
    apply in_map_iff. exists (c, v1). split; [reflexivity|exact Hv1].
Qed.

(** ** The filler: failures and what it leaves alone *)

Lemma fill_row_unfillable (score_map : PyDict.dict float) (row : DocxRow) :
  row_fillable score_map row = false ->
  fill_row (normalize_map score_map) row
  = Raise (IndexError "list index out of range").
Proof.
  destruct row as [|c0 rest]; [reflexivity|].
  unfold fill_row; simpl. rewrite get_normalize_map.
  destruct (matching_score score_map (cell_text c0)); [|discriminate].
  destruct rest; [reflexivity|discriminate].
Qed.

Lemma mapM_fill_unfillable (score_map : PyDict.dict float) (rs : list DocxRow) :
  Exists (fun row => row_fillable score_map row = false) rs ->
  mapM (fill_row (normalize_map score_map)) rs
  = Raise (IndexError "list index out of range").
Proof.
  induction rs as [|row rs IH]; intros Hex; [inversion Hex|]. simpl.
  destruct (row_fillable score_map row) eqn:Hrow.
  - rewrite (fill_row_fillable _ _ Hrow); simpl.
    apply Exists_cons in Hex as [Hh|Ht]; [congruence|].
    rewrite (IH Ht); reflexivity.
  - rewrite (fill_row_unfillable _ _ Hrow); reflexivity.
Qed.

Lemma fill_row_filled (score_map : PyDict.dict float) (row row' : DocxRow) :
  fill_row (normalize_map score_map) row = Ok row' ->
  row' = filled_row score_map row.
Proof.
  destruct (row_fillable score_map row) eqn:Hrow.
  - rewrite (fill_row_fillable _ _ Hrow). intros [= <-]; reflexivity.
  - rewrite (fill_row_unfillable _ _ Hrow). discriminate.
Qed.

Lemma same_but_second_text_refl (row : DocxRow) : same_but_second_text row row.
Proof. repeat split. Qed.

Lemma filled_row_same (score_map : PyDict.dict float) (row : DocxRow) :
  same_but_second_text row (filled_row score_map row).
Proof.
  unfold filled_row.
  destruct row as [|c0 [|c1 rest]]; try apply same_but_second_text_refl.
  destruct (matching_score score_map (cell_text c0));
    [|apply same_but_second_text_refl].
  repeat split. intros [|[|j]] Hj; [reflexivity|congruence|reflexivity].
Qed.

Lemma mapM_fill_same (score_map : PyDict.dict float) (rs rs' : list DocxRow) :
  mapM (fill_row (normalize_map score_map)) rs = Ok rs' ->
  Forall2 same_but_second_text rs rs'.
Proof.
  revert rs'; induction rs as [|row rs IH]; intros rs'; simpl.
  - intros [= <-]; constructor.
  - destruct (fill_row _ row) as [row'|e] eqn:Hrow; simpl; [|discriminate].
    destruct (mapM _ rs) as [rs1|e]; simpl; [|discriminate].
    intros [= <-]. constructor; [|apply IH; reflexivity].
    rewrite (fill_row_filled _ _ _ Hrow). apply filled_row_same.
Qed.

Lemma mapM_cons {A B} (f : A -> result B) (a : A) (l : list A) :
  mapM f (a :: l) = (b ← f a; bs ← mapM f l; Ok (b :: bs)).
Proof. reflexivity. Qed.

Lemma fill_row_no_match (score_map : PyDict.dict float) (c0 : DocxCell)
  (rest : list DocxCell) :
  matching_score score_map (cell_text c0) = None ->
  fill_row (normalize_map score_map) (c0 :: rest) = Ok (c0 :: rest).
Proof.
  intros Hm.
  assert (row_fillable score_map (c0 :: rest) = true) as Hf
    by (simpl; rewrite Hm; reflexivity).
  rewrite (fill_row_fillable _ _ Hf). unfold filled_row.
  destruct rest; [reflexivity|]. rewrite Hm; reflexivity.
Qed.

Section FillerFacts.
Context `{DocxLib}.

(** X12.  When a row of the first table after row 0 has no cell at all, or
    matches a key and has no second cell, the filler raises [IndexError]
    and returns no document. *)
Theorem fill_word_scores_narrow_row_raises (now : Z) (template_bytes : bytes)
  (score_map : PyDict.dict float) (doc : Document) (t : DocxTable)
  (ts : list DocxTable) :
  load_docx template_bytes = Ok doc ->
  doc_tables doc = t :: ts ->
  Exists (fun row => row_fillable score_map row = false) (drop 1 t) ->
  _fill_word_scores now template_bytes score_map
  = Raise (IndexError "list index out of range").
Proof.
  intros Hl Ht Hex.
  unfold _fill_word_scores; rewrite Hl; simpl.
  unfold fill_document; rewrite Ht.
  unfold fill_table. rewrite (mapM_fill_unfillable _ _ Hex). reflexivity.
Qed.

(** X13.  Whenever the filler succeeds, the document it writes has the
    content outside the tables and every table but the first as loaded; the
    first table has the same rows in number, and each row has the same
    number of cells with the same cell properties and, except for the second
    cell, the same cells as before.  The first column is never written. *)
Theorem fill_word_scores_preserves_shape (now : Z) (template_bytes : bytes)
  (score_map : PyDict.dict float) (out : bytes) :
  _fill_word_scores now template_bytes score_map = Ok out ->
  exists doc t t' ts,
    load_docx template_bytes = Ok doc
    /\ doc_tables doc = t :: ts
    /\ out = save_docx now
               {| doc_tables := t' :: ts; doc_rest := doc_rest doc |}
    /\ Forall2 same_but_second_text t t'.
Proof.
  unfold _fill_word_scores.
  destruct (load_docx template_bytes) as [doc|e]; simpl; [|discriminate].
  unfold fill_document.
  destruct (doc_tables doc) as [|t ts] eqn:Ht; simpl; [discriminate|].
  unfold fill_table.
  destruct (mapM _ (drop 1 t)) as [rs'|e] eqn:Hrs; simpl; [|discriminate].
  intros [= <-].
  exists doc, t, (take 1 t ++ rs'), ts.
  split; [reflexivity|]. split; [exact Ht|]. split; [reflexivity|].
  apply mapM_fill_same in Hrs. clear Ht.
  destruct t as [|h rest]; simpl in *.
  - inversion Hrs; constructor.
  - rewrite drop_0 in Hrs.
    constructor; [apply same_but_second_text_refl|exact Hrs].
Qed.

(** X14.  When every row of the first table after row 0 has a first cell
    and none of these cells matches a key, as is the case for the empty
    mapping, the filler writes the loaded document back unchanged. *)
Theorem fill_word_scores_no_match_unchanged (now : Z) (template_bytes : bytes)
  (score_map : PyDict.dict float) (doc : Document) (t : DocxTable)
  (ts : list DocxTable) :
  load_docx template_bytes = Ok doc ->
  doc_tables doc = t :: ts ->
  Forall (fun row => exists c0 rest,
            row = c0 :: rest
            /\ matching_score score_map (cell_text c0) = None) (drop 1 t) ->
  _fill_word_scores now template_bytes score_map = Ok (save_docx now doc).
Proof.
  intros Hl Ht Hrows.
  unfold _fill_word_scores; rewrite Hl; simpl.
  unfold fill_document; rewrite Ht. unfold fill_table.
  assert (mapM (fill_row (normalize_map score_map)) (drop 1 t)
          = Ok (drop 1 t)) as ->.
  { induction Hrows as [|row rs (c0 & rest & -> & Hm) _ IH]; [reflexivity|].
    rewrite mapM_cons, (fill_row_no_match _ _ _ Hm), IH; reflexivity. }
  simpl. rewrite take_drop.
  destruct doc as [tables other]; simpl in *; subst tables; reflexivity.
Qed.

End FillerFacts.

(** ** The text written for a score *)

Lemma two_digits_shape (k : Z) :
  (0 <= k < 100)%Z ->
  String.length (two_digits k) = 2%nat
  /\ all_chars is_digit (two_digits k) = true.
Proof.
  intros Hk.
  assert (forall n : nat, (n < 100)%nat ->
            String.length (two_digits (Z.of_nat n)) = 2%nat
            /\ all_chars is_digit (two_digits (Z.of_nat n)) = true) as Hall.
  { intros n Hn.
    do 100 (destruct n as [|n]; [split; reflexivity|]). lia. }
  rewrite <- (Z2Nat.id k) by lia. apply Hall. lia.
Qed.

(** X15.  The text [format_2f] produces for a score is "nan" for NaN,
    "inf" or "-inf" for an infinity, and otherwise ends in a point followed
    by exactly two decimal digits. *)
Theorem format_2f_shape (x : float) :
  match Prim2SF x with
  | S754_nan => format_2f x = "nan"
  | S754_infinity s => format_2f x = sign_str s +:+ "inf"
  | _ => exists whole frac,
           format_2f x = whole +:+ "." +:+ frac
           /\ String.length frac = 2%nat
           /\ all_chars is_digit frac = true
  end.
Proof.
  unfold format_2f.
  destruct (Prim2SF x) as [s|s| |s m e]; try reflexivity.
  - exists (sign_str s +:+ "0"), "00". destruct s; repeat split.
  - destruct (two_digits_shape (hundredths m e mod 100)) as [Hlen Hdig].
    { apply Z.mod_pos_bound; lia. }
    exists (sign_str s +:+ string_of_N (Z.to_N (hundredths m e / 100))),
           (two_digits (hundredths m e mod 100)).
    split; [|split; assumption].
    destruct s; reflexivity.
Qed.

(** ** The merger: inputs that are not read, inputs that fail *)

Section MergerFacts.
Context `{PdfLib}.


End MergerFacts.

(** ** The extractor: its only failures *)

Section ExtractorFacts.
Context `{MultipartLib}.

(** X17.  [_parse_multipart] fails in two ways only: with the [ValueError]
    of line 20 when the header is not accepted, and with the exception of
    the decoder when the header is accepted; reading the parameters of the
    parts never raises. *)
Theorem parse_multipart_failures (req : HttpRequest) (e : exn) :
  _parse_multipart req = Raise e ->
  (ctype_ok (request_ctype req) = false /\ e = content_type_error)
  \/ (ctype_ok (request_ctype req) = true
      /\ MultipartDecoder (req_body req)
           (default EmptyString (request_ctype req)) = Raise e).
Proof.
  destruct (ctype_ok (request_ctype req)) eqn:Hc.
  - rewrite (parse_multipart_decoder _ Hc).
    destruct (MultipartDecoder _ _) as [parts|e']; simpl.
    + rewrite foldM_add_part; discriminate.
    + intros [= ->]; right; auto.
  - rewrite (parse_multipart_raises _ Hc). intros [= <-]; left; auto.
Qed.

End ExtractorFacts.

(** ** Runs of the further properties *)

Lemma main_ok_inversion_witness :
  exists pdf_url docx_url,
    fst (@main (test_platform (fixed_decoder full_parts)
                              (fixed_excel example_frame))
           test_config form_request open_service)
    = @success_response plain_std pdf_url docx_url.
Proof.
  destruct (@main_ok_inversion
              (test_platform (fixed_decoder full_parts)
                             (fixed_excel example_frame))
              test_config form_request open_service eq_refl)
    as (_ & _ & _ & _ & _ & pdf_url & docx_url & _ & _ & _ & _ & _ & _ & _ & Hr).
  exists pdf_url, docx_url. exact Hr.
Defined.

Lemma main_missing_part_400_witness :
  List.filter (stored_as "word_template") example_parts = []
  /\ @main (test_platform (fixed_decoder example_parts)
                          (fixed_excel example_frame))
       test_config form_request open_service
     = (missing_part_response, open_service).
Proof.
  split; [reflexivity|].
  apply (@main_missing_part_400
           (test_platform (fixed_decoder example_parts)
                          (fixed_excel example_frame))
           test_config form_request example_parts open_service);
    [reflexivity | reflexivity | right; reflexivity].
Defined.

Lemma main_document_failure_500_witness :
  @main (test_platform (fixed_decoder full_parts)
                       (fixed_excel notes_only_frame))
    test_config form_request open_service
  = (error_response (IndexError "list index out of range"), open_service).
Proof.
  eapply (@main_document_failure_500
            (test_platform (fixed_decoder full_parts)
                           (fixed_excel notes_only_frame))
            test_config form_request);
    [reflexivity | reflexivity | reflexivity | left; reflexivity].
Defined.

Lemma main_unconfigured_never_publishes_witness :
  snd (@main (test_platform (fixed_decoder full_parts)
                            (fixed_excel example_frame))
         (config_of_env []) form_request open_service) = open_service
  /\ status_code
       (fst (@main (test_platform (fixed_decoder full_parts)
                                  (fixed_excel example_frame))
               (config_of_env []) form_request open_service)) <> 200%Z.
Proof.
  apply (@main_unconfigured_never_publishes
           (test_platform (fixed_decoder full_parts)
                          (fixed_excel example_frame))
           [] form_request open_service).
  reflexivity.
Defined.

Lemma upload_with_sas_ok_inversion_witness :
  exists url w',
    @_upload_with_sas memory_blob test_config "a.pdf" [Byte.x01] locked_service
      = (Ok url, w')
    /\ exists sas, url = blob_url "cjreports" "reports" "a.pdf" sas.
Proof.
  destruct (@_upload_with_sas memory_blob test_config "a.pdf" [Byte.x01]
              locked_service) as [[url|e] w'] eqn:Hu.
  - exists url, w'. split; [reflexivity|].
    destruct (@upload_with_sas_ok_inversion memory_blob test_config "a.pdf"
                [Byte.x01] locked_service w' url Hu)
      as (_ & bsc & sas & Hb & _ & _ & ->).
    injection Hb as <-. exists sas. reflexivity.
  - exfalso. apply (f_equal fst) in Hu. discriminate Hu.
Defined.

Lemma read_scores_selects_rows_witness :
  @_read_scores_from_excel (fixed_excel repeated_frame) test_runtime []
  = Ok (["Staff"; "Staff"], [3.5%float; 3.8%float], Some 4.1%float).
Proof.
  apply (@read_scores_selects_rows (fixed_excel repeated_frame) test_runtime []
           repeated_frame "Category" (LStr "Average Score") eq_refl eq_refl).
Defined.

Lemma read_scores_blank_category_ignored_witness :
  exists res,
    @_read_scores_from_excel (fixed_excel repeated_frame) test_runtime []
      = Ok res
    /\ @scores_of_frame test_runtime
         {| columns := columns repeated_frame;
            rows := [ [CText "Overall"; CNum 4.0]; [CText "Staff"; CNum 3.5] ]
                    ++ [ [CText "Staff"; CNum 3.8];
                         [CText "Overall (final)"; CNum 4.1];
                         [CText "overall note"; CText "tbd"] ] |}
       = Ok res.
Proof.
  apply (@read_scores_blank_category_ignored (fixed_excel repeated_frame)
           test_runtime [] repeated_frame "Category" (LStr "Average Score")
           [ [CText "Overall"; CNum 4.0]; [CText "Staff"; CNum 3.5] ]
           [ [CText "Staff"; CNum 3.8]; [CText "Overall (final)"; CNum 4.1];
             [CText "overall note"; CText "tbd"] ]
           [CText "  "; CNum 1.0]);
    [reflexivity | reflexivity | reflexivity | right; reflexivity].
Defined.

Lemma read_scores_float_cell_kept_witness :
  exists cats scores overall,
    @scores_of_frame test_runtime
      {| columns := columns example_frame; rows := rows example_frame |}
      = Ok (cats, scores, overall)
    /\ @_read_scores_from_excel
         (fixed_excel {| columns := columns example_frame;
                         rows := rows example_frame ++ [blank_score_row] |})
         test_runtime []
       = Ok (cats ++ ["Parking"], scores ++ [nan], overall).
Proof.
  apply (@read_scores_float_cell_kept
           (fixed_excel {| columns := columns example_frame;
                           rows := rows example_frame ++ [blank_score_row] |})
           test_runtime []
           {| columns := columns example_frame;
              rows := rows example_frame ++ [blank_score_row] |}
           "Category" (LStr "Average Score") (rows example_frame)
           blank_score_row " Parking " nan);
    reflexivity.
Defined.

Lemma sheet_scores_reach_template_witness :
  exists c,
    In (c, 3.8%float) (combine ["Cleanliness"; "Staff"] [4.5%float; 3.8%float])
    /\ PyStr.lower (PyStr.strip c) = PyStr.lower (PyStr.strip " STAFF ").
Proof.
  apply (proj1 (sheet_scores_reach_template ["Cleanliness"; "Staff"]
                  [4.5%float; 3.8%float] " STAFF ")).
  reflexivity.
Defined.

Lemma fill_word_scores_narrow_row_raises_witness :
  @_fill_word_scores line_docx 0%Z one_column_template example_scores
  = Raise (IndexError "list index out of range").
Proof.
  eapply (@fill_word_scores_narrow_row_raises line_docx 0%Z
            one_column_template example_scores);
    [reflexivity | reflexivity | repeat constructor].
Defined.

Lemma fill_word_scores_preserves_shape_witness :
  exists doc t t' ts,
    @load_docx line_docx review_template = Ok doc
    /\ doc_tables doc = t :: ts
    /\ Forall2 same_but_second_text t t'.
Proof.
  destruct (@_fill_word_scores line_docx 0%Z review_template example_scores)
    as [out|e] eqn:Hf.
  - destruct (@fill_word_scores_preserves_shape line_docx 0%Z review_template
                example_scores out Hf) as (doc & t & t' & ts & Hl & Ht & _ & Hs).
    exists doc, t, t', ts. auto.
  - exfalso. vm_compute in Hf. discriminate Hf.
Defined.

Lemma fill_word_scores_no_match_unchanged_witness :
  @_fill_word_scores line_docx 0%Z review_template []
  = Ok (@save_docx line_docx 0%Z
          {| doc_tables :=
               [ [ [text_cell "Category"; text_cell "Score"];
                   [text_cell "Cleanliness"; text_cell EmptyString];
                   [text_cell " STAFF "; text_cell "-"];
                   [text_cell "Notes"; text_cell "see appendix"] ] ];
             doc_rest := EmptyString |}).
Proof.
  eapply (@fill_word_scores_no_match_unchanged line_docx 0%Z review_template
            []);
    [reflexivity | reflexivity |].
  repeat constructor; eexists _, _; split; reflexivity.
Defined.

Lemma parse_multipart_failures_witness :
  ctype_ok (request_ctype bare_request) = false
  /\ content_type_error = content_type_error.
Proof.
  destruct (@parse_multipart_failures (fixed_decoder example_parts)
              bare_request content_type_error eq_refl) as [Hl|[Hr _]].
  - exact Hl.
  - discriminate Hr.
Defined.
